(** * Verification of [packaging/whl.py] (rules_python)

    A shallow embedding of the [Wheel] class: the file-name functions
    ([distribution], [version], [repository_name], [_dist_info]), the
    METADATA reader [_parse_metadata] with its nested helper
    [find_marker_extra], and the resolver [dependencies].

    Python exceptions are values of [result]; the [Requirement] objects that
    [_parse_metadata] updates in place live in an explicit object store; the
    third-party libraries the module calls ([email.parser], [pkg_resources],
    [packaging.markers], [zipfile]) are the fields of the class [Library],
    taken as functions of their arguments. [Packaging] models the marker
    evaluation of the [packaging] release the module was written against,
    and [Reference] assembles a small instance of [Library] on which the
    closed examples run. *)

From stdpp Require Import base option list strings gmap.
From Stdlib Require Import Ascii String.

Open Scope string_scope.
Open Scope list_scope.

Set Warnings "-register-all".

(** ** Exceptions and results *)

Inductive exn : Type :=
| IndexError
| KeyError
| TypeError
| AssertionError
| UndefinedEnvironmentName
| UndefinedComparison
| InvalidRequirement
| BadZipFile
| Unsupported
| DanglingReference.

Inductive result (A : Type) : Type :=
| Ok (a : A)
| Raise (e : exn).

Arguments Ok {A} a.
Arguments Raise {A} e.

#[global] Instance exn_eq_dec : EqDecision exn.
Proof. solve_decision. Defined.

#[global] Instance result_ret : MRet result := fun _ a => Ok a.
#[global] Instance result_bind : MBind result := fun _ _ f r =>
  match r with
  | Ok a => f a
  | Raise e => Raise e
  end.
#[global] Instance result_fmap : FMap result := fun _ _ f r =>
  match r with
  | Ok a => Ok (f a)
  | Raise e => Raise e
  end.

Definition is_Ok {A} (r : result A) : Prop := exists a, r = Ok a.

#[global] Instance result_eq_dec {A} `{EqDecision A} : EqDecision (result A).
Proof. solve_decision. Defined.

(** ** The Python built-ins the module uses *)

Module Py.

(** [s.split(sep)] for a one-character separator: never empty. *)
Fixpoint split (sep : ascii) (s : string) : list string :=
  match s with
  | EmptyString => [EmptyString]
  | String c s' =>
      if Ascii.eqb c sep then EmptyString :: split sep s'
      else match split sep s' with
           | [] => [String c EmptyString]
           | part :: parts => String c part :: parts
           end
  end.

(** [c in s] for a character. *)
Fixpoint contains (c : ascii) (s : string) : bool :=
  match s with
  | EmptyString => false
  | String c' s' => Ascii.eqb c' c || contains c s'
  end.

(** [xs[i]] for [i >= 0]. *)
Definition index {A} (xs : list A) (i : nat) : result A :=
  match xs !! i with
  | Some x => Ok x
  | None => Raise IndexError
  end.

(** [xs[-1]]. *)
Fixpoint index_last {A} (xs : list A) : result A :=
  match xs with
  | [] => Raise IndexError
  | [x] => Ok x
  | _ :: xs' => index_last xs'
  end.

(** [os.path.basename(p)] (posixpath): [p[p.rfind('/') + 1:]]. *)
Fixpoint basename (p : string) : string :=
  match p with
  | EmptyString => EmptyString
  | String c p' =>
      if Ascii.eqb c "/" || contains "/" p' then basename p' else p
  end.

(** [re.sub('[' + cls + ']', repl, s)]: every character of the class is
    replaced, scanning from the left; the others are copied. *)
Fixpoint re_sub_class (cls : list ascii) (repl : string) (s : string) : string :=
  match s with
  | EmptyString => EmptyString
  | String c s' =>
      if bool_decide (c ∈ cls) then repl +:+ re_sub_class cls repl s'
      else String c (re_sub_class cls repl s')
  end.

(** [s.lower()] on ASCII letters. *)
Definition lower_ascii (c : ascii) : ascii :=
  let n := nat_of_ascii c in
  if (65 <=? n)%nat && (n <=? 90)%nat then ascii_of_nat (n + 32) else c.

Fixpoint lower (s : string) : string :=
  match s with
  | EmptyString => EmptyString
  | String c s' => String (lower_ascii c) (lower s')
  end.

(** Truth value of [None], of a [str] and of a tuple. *)
Definition truth_str (s : string) : bool := negb (String.eqb s "").

Definition truth_opt_str (s : option string) : bool :=
  match s with
  | None => false
  | Some s => truth_str s
  end.

Definition truth_tuple {A} (xs : list A) : bool :=
  match xs with
  | [] => false
  | _ :: _ => true
  end.

End Py.

(** ** [packaging.markers]: the parsed form of an environment marker *)

Module Markers.

(** The three node classes; each carries [value]. [Variable] is spelled
    [VariableNode] (the bare word is a command of the proof assistant). *)
Inductive Node : Type :=
| VariableNode (value : string)
| ValueNode (value : string)
| OpNode (value : string).

Definition value (n : Node) : string :=
  match n with
  | VariableNode v | ValueNode v | OpNode v => v
  end.

Definition serialize (n : Node) : string := value n.

(** An element of [Marker._markers]: a tuple [(lhs, op, rhs)], a nested list
    (a parenthesised group) or one of the strings ["and"] and ["or"]. *)
Inductive item : Type :=
| Tuple (lhs op rhs : Node)
| List (items : list item)
| Str (s : string).

Record Marker : Type := { _markers : list item }.

End Markers.

(** ** [pkg_resources.Requirement]: the attributes the module reads *)

Module Requirement.

Record t : Type := Requirement {
  project_name : string;
  extras : list string;
  marker : option Markers.Marker;
}.

Definition with_extras (es : list string) (r : t) : t :=
  {| project_name := project_name r; extras := es; marker := marker r |}.

End Requirement.

(** ** [email.message.Message]: the header list and its two readers *)

Module email.

Record Message : Type := { _headers : list (string * string) }.

Fixpoint get_all_loop (name : string) (headers : list (string * string))
    (values : list string) : list string :=
  match headers with
  | [] => values
  | (k, v) :: rest =>
      if String.eqb (Py.lower k) name then get_all_loop name rest (values ++ [v])
      else get_all_loop name rest values
  end.

Definition get_all (self : Message) (name : string) (failobj : list string) : list string :=
  let values := get_all_loop (Py.lower name) (_headers self) [] in
  if Py.truth_tuple values then values else failobj.

Fixpoint get_loop (name : string) (headers : list (string * string)) : option string :=
  match headers with
  | [] => None
  | (k, v) :: rest =>
      if String.eqb (Py.lower k) name then Some v else get_loop name rest
  end.

Definition get (self : Message) (name : string) : option string :=
  get_loop (Py.lower name) (_headers self).

End email.

(** ** The libraries behind the module *)

(** An opened archive: the decoded text of an entry, [KeyError] when the
    archive has no such entry. *)
Definition archive : Type := string -> result string.

Class Library : Type := {
  (** [email.parser.Parser().parsestr]: it accepts every text. *)
  parsestr : string -> email.Message;
  (** [list(pkg_resources.parse_requirements(lines))]: the attribute values
      of the objects it creates, in order. *)
  parse_requirements : list string -> result (list Requirement.t);
  (** [Marker.evaluate(environment)]. *)
  evaluate : Markers.Marker -> gmap string (option string) -> result bool;
  (** [zipfile.ZipFile(path, 'r')]. *)
  ZipFile : string -> result archive;
}.

(** ** The object store

    [_parse_metadata] rebinds [requirement.extras] on the objects that
    [parse_requirements] created; an object is a cell of the store and the
    lists of the module hold references. *)

Abbreviation loc := nat (only parsing).

Abbreviation store := (list Requirement.t) (only parsing).

Definition M (A : Type) : Type := store -> store * result A.

#[global] Instance M_ret : MRet M := fun _ a s => (s, Ok a).
#[global] Instance M_bind : MBind M := fun _ _ f m s =>
  match m s with
  | (s', Ok a) => f a s'
  | (s', Raise e) => (s', Raise e)
  end.

Definition lift {A} (r : result A) : M A := fun s => (s, r).

(** A new object: the next free cell. *)
Definition new (r : Requirement.t) : M loc := fun s => (s ++ [r], Ok (List.length s)).

Fixpoint new_all (rs : list Requirement.t) : M (list loc) :=
  match rs with
  | [] => mret []
  | r :: rest => l ← new r; ls ← new_all rest; mret (l :: ls)
  end.

Definition deref (s : store) (l : loc) : result Requirement.t :=
  match s !! l with
  | Some r => Ok r
  | None => Raise DanglingReference
  end.

Definition read (l : loc) : M Requirement.t := fun s => (s, deref s l).

Definition set_extras (l : loc) (es : list string) : M unit := fun s =>
  (alter (Requirement.with_extras es) l s, Ok ()).

Fixpoint read_all (ls : list loc) : M (list Requirement.t) :=
  match ls with
  | [] => mret []
  | l :: rest => r ← read l; rs ← read_all rest; mret (r :: rs)
  end.

(** ** The METADATA record *)

Module Metadata.

(** The dict [_parse_metadata] returns, over the type of its
    [run_requires] entries: references while the program runs, attribute
    values once read out of the store. *)
Record t (R : Type) : Type := Metadata {
  name : option string;
  run_requires : list R;
  extras : gset string;
}.

Arguments Metadata {R} _ _ _.
Arguments name {R} _.
Arguments run_requires {R} _.
Arguments extras {R} _.

End Metadata.

(** Reading a record's requirement objects. *)
Definition snapshot (md : Metadata.t loc) : M (Metadata.t Requirement.t) :=
  rs ← read_all (Metadata.run_requires md);
  mret (Metadata.Metadata (Metadata.name md) rs (Metadata.extras md)).

(** ** The class [Wheel] *)

Module Wheel.

Record t : Type := Wheel { _path : string }.

Definition path (self : t) : string := _path self.

Definition basename (self : t) : string := Py.basename (path self).

Definition distribution (self : t) : result string :=
  let parts := Py.split "-" (basename self) in
  Py.index parts 0.

Definition version (self : t) : result string :=
  let parts := Py.split "-" (basename self) in
  Py.index parts 1.

Definition repository_name (self : t) : result string :=
  d ← distribution self;
  v ← version self;
  let canonical := "pypi__" +:+ d +:+ "_" +:+ v in
  Ok (Py.re_sub_class ["-"; "."; "+"]%char "_" canonical).

Definition _dist_info (self : t) : result string :=
  d ← distribution self;
  v ← version self;
  Ok (d +:+ "-" +:+ v +:+ ".dist-info").

(** [find_marker_extra], the helper nested in [_parse_metadata]. A list is
    followed through its last element ([markers[-1]]); a tuple whose left
    side is the variable [extra] yields the value of its right side; every
    other case yields [None]. *)
Fixpoint find_marker_extra (markers : Markers.item) : result (option string) :=
  match markers with
  | Markers.List items =>
      (fix last (xs : list Markers.item) : result (option string) :=
         match xs with
         | [] => Raise IndexError
         | [x] => find_marker_extra x
         | _ :: xs' => last xs'
         end) items
  | Markers.Tuple lhs op rhs =>
      match lhs with
      | Markers.VariableNode v =>
          if String.eqb v "extra" then Ok (Some (Markers.value rhs)) else Ok None
      | _ => Ok None
      end
  | Markers.Str _ => Ok None
  end.

(** The loop of [_parse_metadata] over the requirement objects, with the
    set [extras] it accumulates. *)
Fixpoint _parse_metadata_loop (requirements : list loc) (extras : gset string)
    : M (gset string) :=
  match requirements with
  | [] => mret extras
  | requirement :: rest =>
      r ← read requirement;
      match Requirement.marker r with
      | Some m =>
          marker_extra ← lift (find_marker_extra (Markers.List (Markers._markers m)));
          if Py.truth_opt_str marker_extra
          then set_extras requirement (Requirement.extras r ++ [default "" marker_extra])
          else mret ()
      | None => mret ()
      end;;
      r' ← read requirement;
      _parse_metadata_loop rest (extras ∪ list_to_set (Requirement.extras r'))
  end.

(** [x in xs] for the requested extra and a tuple of strings. *)
Definition in_tuple (x : option string) (xs : list string) : bool :=
  match x with
  | Some e => bool_decide (e ∈ xs)
  | None => false
  end.

Section methods.

Context `{Library}.

Definition _parse_metadata (content : string) : M (Metadata.t loc) :=
  let metadata := parsestr content in
  parsed ← lift (parse_requirements
                   (email.get_all metadata "Requires" []
                    ++ email.get_all metadata "Requires-Dist" []));
  requirements ← new_all parsed;
  extras ← _parse_metadata_loop requirements ∅;
  mret (Metadata.Metadata (email.get metadata "name") requirements extras).

Definition metadata (self : t) : M (Metadata.t loc) :=
  whl ← lift (ZipFile (path self));
  entry ← lift (_dist_info self);
  content ← lift (whl (entry +:+ "/METADATA"));
  _parse_metadata content.

Definition name (self : t) : M (option string) :=
  md ← metadata self;
  mret (Metadata.name md).

(** One turn of the loop of [dependencies]: [Ok false] for each of the three
    [continue]s, [Ok true] when the project name is added. *)
Definition dependencies_body (extra : option string) (requirement : Requirement.t)
    : result bool :=
  if negb (Py.truth_opt_str extra) && Py.truth_tuple (Requirement.extras requirement)
  then Ok false
  else if Py.truth_opt_str extra && Py.truth_tuple (Requirement.extras requirement)
          && negb (in_tuple extra (Requirement.extras requirement))
  then Ok false
  else match Requirement.marker requirement with
       | Some m =>
           b ← evaluate m {[ "extra" := extra ]};
           if negb b then Ok false else Ok true
       | None => Ok true
       end.

Fixpoint dependencies_loop (extra : option string) (run_requires : list Requirement.t)
    (dependency_set : gset string) : result (gset string) :=
  match run_requires with
  | [] => Ok dependency_set
  | requirement :: rest =>
      add ← dependencies_body extra requirement;
      dependencies_loop extra rest
        (if add : bool then dependency_set ∪ {[ Requirement.project_name requirement ]}
         else dependency_set)
  end.

(** [dependencies] on the record [metadata()] returned, its requirement
    objects read. *)
Definition dependencies_of (record : Metadata.t Requirement.t) (extra : option string)
    : result (gset string) :=
  dependencies_loop extra (Metadata.run_requires record) ∅.

Definition dependencies (self : t) (extra : option string) : M (gset string) :=
  md ← metadata self;
  record ← snapshot md;
  lift (dependencies_of record extra).

Definition extras (self : t) : M (gset string) :=
  md ← metadata self;
  mret (Metadata.extras md).

(** Whether the marker of a requirement without extras of its own (one the
    first two tests of [dependencies] let through under any request)
    evaluates alike under two requests. *)
Definition markers_agree (extra1 extra2 : option string) (requirement : Requirement.t)
    : bool :=
  match Requirement.extras requirement, Requirement.marker requirement with
  | [], Some m =>
      bool_decide (evaluate m {[ "extra" := extra1 ]} = evaluate m {[ "extra" := extra2 ]})
  | _, _ => true
  end.

(** [_parse_metadata] followed by a reading of the objects of its record. *)
Definition parse_record (content : string) : M (Metadata.t Requirement.t) :=
  md ← _parse_metadata content;
  snapshot md.

End methods.

(** *** The value-level reading of [_parse_metadata]

    What the loop leaves in one object, in all of them, and the record as
    a function of the text alone; [parse_record_run] and
    [parse_metadata_loop_run] below relate them to the runs on a store. *)

Definition backfill (r : Requirement.t) : result Requirement.t :=
  match Requirement.marker r with
  | Some m =>
      marker_extra ← find_marker_extra (Markers.List (Markers._markers m));
      Ok (if Py.truth_opt_str marker_extra
          then Requirement.with_extras (Requirement.extras r ++ [default "" marker_extra]) r
          else r)
  | None => Ok r
  end.

Fixpoint backfill_all (rs : list Requirement.t) (extras : gset string)
    : result (list Requirement.t * gset string) :=
  match rs with
  | [] => Ok ([], extras)
  | r :: rest =>
      r' ← backfill r;
      '(rs', extras') ← backfill_all rest (extras ∪ list_to_set (Requirement.extras r'));
      Ok (r' :: rs', extras')
  end.

Definition parse_value `{Library} (content : string) : result (Metadata.t Requirement.t) :=
  let metadata := parsestr content in
  parsed ← parse_requirements
             (email.get_all metadata "Requires" []
              ++ email.get_all metadata "Requires-Dist" []);
  '(rs, extras) ← backfill_all parsed ∅;
  Ok (Metadata.Metadata (email.get metadata "name") rs extras).

(** An object of the record against the object [parse_requirements] made:
    the loop leaves the project name and the marker, and extends the extras. *)
Definition same_requirement (parsed r : Requirement.t) : Prop :=
  Requirement.project_name r = Requirement.project_name parsed /\
  Requirement.marker r = Requirement.marker parsed /\
  Requirement.extras parsed `prefix_of` Requirement.extras r.

(** The loop of [_parse_metadata] on one object [r], in the cell after
    [pre]: it leaves [r'] there and adds the extras of [r'] to the set. *)
Definition loop_leaves (r r' : Requirement.t) : Prop :=
  forall (pre : store) (extras : gset string),
    _parse_metadata_loop [List.length pre] extras (pre ++ [r])
    = (pre ++ [r'], Ok (extras ∪ list_to_set (Requirement.extras r'))).

(** A record as seen through a store: the result of a run, its objects read. *)
Definition observe (s : store) (r : result (Metadata.t loc))
    : result (Metadata.t Requirement.t) :=
  match r with
  | Ok md => snd (snapshot md s)
  | Raise e => Raise e
  end.

End Wheel.

(** ** [packaging.markers]: evaluation

    [Marker.evaluate] as the module's library version defines it (the
    [packaging] that [pkg_resources] carries: [_evaluate_markers],
    [_get_env], [_eval_op] and the table [_operators], with Python 3's
    comparisons). [Specifier] (PEP 440 version matching) and
    [default_environment] (the interpreter's own values) stay abstract. *)

Module Packaging.

Fixpoint is_substring (x s : string) : bool :=
  String.prefix x s ||
  match s with
  | EmptyString => false
  | String _ s' => is_substring x s'
  end.

Definition str_lt (a b : string) : bool :=
  match String.compare a b with
  | Lt => true
  | _ => false
  end.

(** A comparison of two [str]; [TypeError] when the left side is [None]. *)
Definition on_str (f : string -> string -> bool) (lhs : option string) (rhs : string)
    : result bool :=
  match lhs with
  | Some l => Ok (f l rhs)
  | None => Raise TypeError
  end.

Definition _operators (op : string) : option (option string -> string -> result bool) :=
  if String.eqb op "in" then Some (on_str is_substring)
  else if String.eqb op "not in" then Some (on_str (fun l r => negb (is_substring l r)))
  else if String.eqb op "<" then Some (on_str str_lt)
  else if String.eqb op "<=" then Some (on_str (fun l r => negb (str_lt r l)))
  else if String.eqb op "==" then Some (fun l r => Ok (bool_decide (l = Some r)))
  else if String.eqb op "!=" then Some (fun l r => Ok (negb (bool_decide (l = Some r))))
  else if String.eqb op ">=" then Some (on_str (fun l r => negb (str_lt l r)))
  else if String.eqb op ">" then Some (on_str (fun l r => str_lt r l))
  else None.

Definition _get_env (environment : gmap string (option string)) (name : string)
    : result (option string) :=
  match environment !! name with
  | Some value => Ok value
  | None => Raise UndefinedEnvironmentName
  end.

(** [groups[-1].append(b)]. *)
Fixpoint append_to_last (groups : list (list bool)) (b : bool) : list (list bool) :=
  match groups with
  | [] => []
  | [g] => [g ++ [b]]
  | g :: gs => g :: append_to_last gs b
  end.

(** [any(all(item) for item in groups)]. *)
Definition any_all (groups : list (list bool)) : bool :=
  existsb (forallb id) groups.

Section evaluation.

(** [Specifier(spec)]: [None] for [InvalidSpecifier], else its [contains]. *)
Variable Specifier : string -> option (option string -> result bool).

Variable default_environment : gmap string (option string).

Definition _eval_op (lhs : option string) (op : Markers.Node) (rhs : option string)
    : result bool :=
  match rhs with
  | None => Raise TypeError
  | Some rhs =>
      match Specifier (Markers.serialize op +:+ rhs) with
      | Some contains => contains lhs
      | None =>
          match _operators (Markers.serialize op) with
          | None => Raise UndefinedComparison
          | Some oper => oper lhs rhs
          end
      end
  end.

(** One turn of the loop of [_evaluate_markers] over [groups]; a nested
    list is evaluated from [[[]]] by the same loop. *)
Fixpoint _evaluate_markers_step (environment : gmap string (option string))
    (marker : Markers.item) (groups : list (list bool)) : result (list (list bool)) :=
  match marker with
  | Markers.List markers =>
      inner ← (fix loop (ms : list Markers.item) (gs : list (list bool)) :=
                 match ms with
                 | [] => Ok gs
                 | m :: ms' =>
                     gs' ← _evaluate_markers_step environment m gs;
                     loop ms' gs'
                 end) markers [[]];
      Ok (append_to_last groups (any_all inner))
  | Markers.Tuple lhs op rhs =>
      '(lhs_value, rhs_value) ←
        match lhs with
        | Markers.VariableNode v =>
            lhs_value ← _get_env environment v;
            Ok (lhs_value, Some (Markers.value rhs))
        | _ =>
            rhs_value ← _get_env environment (Markers.value rhs);
            Ok (Some (Markers.value lhs), rhs_value)
        end;
      b ← _eval_op lhs_value op rhs_value;
      Ok (append_to_last groups b)
  | Markers.Str s =>
      if String.eqb s "or" then Ok (groups ++ [[]])
      else if String.eqb s "and" then Ok groups
      else Raise AssertionError
  end.

Fixpoint _evaluate_markers_loop (environment : gmap string (option string))
    (markers : list Markers.item) (groups : list (list bool)) : result (list (list bool)) :=
  match markers with
  | [] => Ok groups
  | m :: ms =>
      groups' ← _evaluate_markers_step environment m groups;
      _evaluate_markers_loop environment ms groups'
  end.

Definition _evaluate_markers (markers : list Markers.item)
    (environment : gmap string (option string)) : result bool :=
  groups ← _evaluate_markers_loop environment markers [[]];
  Ok (any_all groups).

(** [Marker.evaluate]: the given bindings override the defaults. *)
Definition evaluate (self : Markers.Marker) (environment : gmap string (option string))
    : result bool :=
  let current_environment := environment ∪ default_environment in
  _evaluate_markers (Markers._markers self) current_environment.

End evaluation.

End Packaging.

(** ** A small library instance for closed examples

    Enough of the four libraries to run the module on concrete METADATA
    texts: header blocks of unfolded [Key: value] lines, the requirement
    lines listed in [known_requirements], markers whose right-hand sides
    are no version numbers, and a POSIX interpreter. *)

Module Reference.

Definition dq : string := String (ascii_of_nat 34) EmptyString.

Definition nl : string := String (ascii_of_nat 10) EmptyString.

Definition is_digit (c : ascii) : bool :=
  let n := nat_of_ascii c in (48 <=? n)%nat && (n <=? 57)%nat.

Fixpoint has_digit (s : string) : bool :=
  match s with
  | EmptyString => false
  | String c s' => is_digit c || has_digit s'
  end.

(** Every form of version specifier other than [===] needs a digit:
    without one the constructor raises [InvalidSpecifier]. Specifiers that
    may be valid are outside this instance. *)
Definition Specifier (spec : string) : option (option string -> result bool) :=
  if has_digit spec || String.prefix "===" spec
  then Some (fun _ => Raise Unsupported)
  else None.

Definition default_environment : gmap string (option string) :=
  {[ "os_name" := Some "posix";
     "sys_platform" := Some "linux";
     "platform_system" := Some "Linux";
     "implementation_name" := Some "cpython" ]}.

(** [s.lstrip(' \t')]. *)
Fixpoint lstrip (s : string) : string :=
  match s with
  | String c s' =>
      if Ascii.eqb c " " || Ascii.eqb c (ascii_of_nat 9) then lstrip s' else s
  | EmptyString => EmptyString
  end.

(** [line.split(':', 1)] with the value stripped on the left; [None] for a
    line with no colon. *)
Fixpoint header_of_line (line : string) : option (string * string) :=
  match line with
  | EmptyString => None
  | String c line' =>
      if Ascii.eqb c ":" then Some (EmptyString, lstrip line')
      else '(k, v) ← header_of_line line'; Some (String c k, v)
  end.

(** The header block ends at the first line that is no header. *)
Fixpoint headers_of_lines (lines : list string) : list (string * string) :=
  match lines with
  | [] => []
  | line :: rest =>
      match header_of_line line with
      | Some h => h :: headers_of_lines rest
      | None => []
      end
  end.

Definition parsestr (content : string) : email.Message :=
  {| email._headers := headers_of_lines (Py.split (ascii_of_nat 10) content) |}.

Definition extra_is (op value : string) : Markers.item :=
  Markers.Tuple (Markers.VariableNode "extra") (Markers.OpNode op) (Markers.ValueNode value).

Definition line_six : string := "six".

Definition line_mock : string := "mock; extra == " +:+ dq +:+ "test" +:+ dq.

Definition line_requests : string :=
  "requests[security]; extra == " +:+ dq +:+ "security" +:+ dq.

Definition line_posix : string :=
  "mock; extra == " +:+ dq +:+ "test" +:+ dq +:+ " and os_name == " +:+ dq +:+ "posix" +:+ dq.

Definition line_empty : string := "mock; extra == " +:+ dq +:+ dq.

Definition line_group : string :=
  "mock; os_name == " +:+ dq +:+ "nt" +:+ dq
  +:+ " or (os_name == " +:+ dq +:+ "posix" +:+ dq
  +:+ " and extra == " +:+ dq +:+ "test" +:+ dq +:+ ")".

Definition os_name_is (value : string) : Markers.item :=
  Markers.Tuple (Markers.VariableNode "os_name") (Markers.OpNode "==")
    (Markers.ValueNode value).

(** The objects [pkg_resources] creates for these lines. *)
Definition req_six : Requirement.t := Requirement.Requirement "six" [] None.

Definition req_mock : Requirement.t :=
  Requirement.Requirement "mock" []
    (Some {| Markers._markers := [extra_is "==" "test"] |}).

Definition req_requests : Requirement.t :=
  Requirement.Requirement "requests" ["security"]
    (Some {| Markers._markers := [extra_is "==" "security"] |}).

Definition req_posix : Requirement.t :=
  Requirement.Requirement "mock" []
    (Some {| Markers._markers :=
               [extra_is "==" "test"; Markers.Str "and"; os_name_is "posix"] |}).

Definition req_empty : Requirement.t :=
  Requirement.Requirement "mock" []
    (Some {| Markers._markers := [extra_is "==" ""] |}).

Definition req_group : Requirement.t :=
  Requirement.Requirement "mock" []
    (Some {| Markers._markers :=
               [os_name_is "nt"; Markers.Str "or";
                Markers.List [os_name_is "posix"; Markers.Str "and";
                              extra_is "==" "test"]] |}).

Definition known_requirements : list (string * Requirement.t) :=
  [ (line_six, req_six); (line_mock, req_mock); (line_requests, req_requests);
    (line_posix, req_posix); (line_empty, req_empty); (line_group, req_group) ].

Fixpoint lookup_line {A} (line : string) (table : list (string * A)) : option A :=
  match table with
  | [] => None
  | (k, v) :: rest => if String.eqb k line then Some v else lookup_line line rest
  end.

Fixpoint parse_requirements (lines : list string) : result (list Requirement.t) :=
  match lines with
  | [] => Ok []
  | line :: rest =>
      match lookup_line line known_requirements with
      | Some r => rs ← parse_requirements rest; Ok (r :: rs)
      | None => Raise InvalidRequirement
      end
  end.

(** A file system of archives: path, then entry name, then text. *)
Definition ZipFile (files : list (string * list (string * string))) (path : string)
    : result archive :=
  match lookup_line path files with
  | Some entries =>
      Ok (fun entry =>
            match lookup_line entry entries with
            | Some text => Ok text
            | None => Raise KeyError
            end)
  | None => Raise BadZipFile
  end.

Definition library (files : list (string * list (string * string))) : Library :=
  Build_Library parsestr parse_requirements
    (Packaging.evaluate Specifier default_environment) (ZipFile files).

(** The METADATA text of the three-requirement example. *)
Definition example_metadata : string :=
  "Metadata-Version: 2.1" +:+ nl
  +:+ "Name: example" +:+ nl
  +:+ "Requires-Dist: " +:+ line_six +:+ nl
  +:+ "Requires-Dist: " +:+ line_mock +:+ nl
  +:+ "Requires-Dist: " +:+ line_requests +:+ nl
  +:+ nl
  +:+ "An example." +:+ nl.

(** The record [_parse_metadata] builds from it. *)
Definition example_record : Metadata.t Requirement.t :=
  Metadata.Metadata (Some "example")
    [ req_six;
      Requirement.with_extras ["test"] req_mock;
      Requirement.with_extras ["security"; "security"] req_requests ]
    {[ "test"; "security" ]}.

(** A METADATA text with the single requirement [line]. *)
Definition metadata_of_line (line : string) : string :=
  "Name: example" +:+ nl +:+ "Requires-Dist: " +:+ line +:+ nl.

Definition example_files : list (string * list (string * string)) :=
  [ ("/whl/example-1.0-py3-none-any.whl",
     [ ("example-1.0.dist-info/METADATA", example_metadata) ]) ].

End Reference.

(** ** The words of the specification

    Definitions that follow the specification's sentences, for comparison
    with the program. *)

Module Spec.

(** "replaces every [-], [.], [+] character with [_]". *)
Definition escape_char (c : ascii) : ascii :=
  if Ascii.eqb c "-" || Ascii.eqb c "." || Ascii.eqb c "+" then "_"%char else c.

Fixpoint escape (s : string) : string :=
  match s with
  | EmptyString => EmptyString
  | String c s' => String (escape_char c) (escape s')
  end.

(** "composes [pypi__{distributionName}_{version}]", then escapes. *)
Definition repository_key (distributionName version : string) : string :=
  escape ("pypi__" +:+ distributionName +:+ "_" +:+ version).

(** The values of one field "in the order they appear". *)
Definition field_values (field : string) (headers : list (string * string)) : list string :=
  (filter (fun kv => Py.lower kv.1 = Py.lower field) headers).*2.

(** "concatenated with [Requires] values first". *)
Definition requirement_lines (headers : list (string * string)) : list string :=
  field_values "Requires" headers ++ field_values "Requires-Dist" headers.

(** "the right-most top-level sub-expression; if it is a leaf of the form
    [extra == "<literal>"]". *)
Definition implicit_extra (m : Markers.Marker) : option string :=
  match last (Markers._markers m) with
  | Some (Markers.Tuple (Markers.VariableNode v) (Markers.OpNode o) (Markers.ValueNode lit)) =>
      if String.eqb v "extra" && String.eqb o "==" then Some lit else None
  | _ => None
  end.

(** "append it to the requirement's extras if not already present". *)
Definition attach (lit : string) (r : Requirement.t) : Requirement.t :=
  if bool_decide (lit ∈ Requirement.extras r) then r
  else Requirement.with_extras (Requirement.extras r ++ [lit]) r.

Definition backfill (r : Requirement.t) : Requirement.t :=
  match Requirement.marker r with
  | Some m =>
      match implicit_extra m with
      | Some lit => attach lit r
      | None => r
      end
  | None => r
  end.

(** The leaf a marker ends in, through nested groups. *)
Fixpoint rightmost (marker : Markers.item) : option Markers.item :=
  match marker with
  | Markers.List items =>
      (fix last (xs : list Markers.item) : option Markers.item :=
         match xs with
         | [] => None
         | [x] => rightmost x
         | _ :: xs' => last xs'
         end) items
  | _ => Some marker
  end.

(** Rule 2 as the specification words it: the requirement is skipped when
    its extras are empty or do not hold the requested extra. *)
Definition rule2_skips (extra : string) (r : Requirement.t) : bool :=
  match Requirement.extras r with
  | [] => true
  | _ => negb (bool_decide (extra ∈ Requirement.extras r))
  end.

End Spec.

(** ** The command line: [expand] and [main]

    [main] acts on the file system as well as on the object store. What
    the operating system does (extracting an archive, opening, writing and
    closing a file) is the class [System]; so is the order in which a
    [set] of names is iterated, which may differ from one call of
    [dependencies] to another. *)

Module Cli.

Import Reference(dq, nl).

(** [sep.join(xs)]. *)
Fixpoint join (sep : string) (xs : list string) : string :=
  match xs with
  | [] => EmptyString
  | [x] => x
  | x :: rest => x +:+ sep +:+ join sep rest
  end.

(** [s.endswith('/')]. *)
Fixpoint ends_with_slash (s : string) : bool :=
  match s with
  | EmptyString => false
  | String c EmptyString => Ascii.eqb c "/"
  | String _ s' => ends_with_slash s'
  end.

(** [os.path.join(a, b)] (posixpath). *)
Definition path_join (a b : string) : string :=
  if String.prefix "/" b then b
  else if String.eqb a "" || ends_with_slash a then a +:+ b
  else a +:+ "/" +:+ b.

(** The namespace [parser.parse_args()] returns, [--whl] given. *)
Record Args : Type := {
  whl : string;
  requirements : option string;
  directory : string;
  extras : option (list string);
}.

Class System : Type := {
  world : Type;
  (** [zipfile.ZipFile(path, 'r').extractall(directory)]. *)
  extractall : string -> string -> world -> world * result unit;
  (** [open(path, 'w')]: the file is created or emptied. *)
  open_w : string -> world -> world * result unit;
  (** [f.write(text)] on the file opened at [path]. *)
  write : string -> string -> world -> world * result unit;
  (** [f.close()], when the [with] block is left. *)
  close : string -> world -> world;
  (** [for d in dependency_set], for the set a request returned. *)
  iteration : option string -> gset string -> list string;
}.

Section main.

Context `{Library} `{System}.

Definition IO (A : Type) : Type := world -> store -> world * store * result A.

#[local] Instance IO_ret : MRet IO := fun _ a w s => (w, s, Ok a).
#[local] Instance IO_bind : MBind IO := fun _ _ f m w s =>
  match m w s with
  | (w', s', Ok a) => f a w' s'
  | (w', s', Raise e) => (w', s', Raise e)
  end.

Definition on_world {A} (f : world -> world * result A) : IO A := fun w s =>
  let '(w', r) := f w in (w', s, r).

Definition on_store {A} (m : M A) : IO A := fun w s =>
  let '(s', r) := m s in (w, s', r).

(** [with open(path, 'w') as f: body]: the file is closed however the body
    ends. *)
Definition with_open {A} (path : string) (body : IO A) : IO A := fun w s =>
  match on_world (open_w path) w s with
  | (w', s', Ok _) => let '(w'', s'', r) := body w' s' in (close path w'', s'', r)
  | (w', s', Raise e) => (w', s', Raise e)
  end.

(** [Wheel.expand]. *)
Definition expand (self : Wheel.t) (directory : string) : IO unit :=
  on_world (extractall (Wheel.path self) directory).

(** ['requirement("%s")' % d]. *)
Definition requirement_call (d : string) : string :=
  "requirement(" +:+ dq +:+ d +:+ dq +:+ ")".

(** The inner template, one target for an extra. *)
Definition extra_target (extra deps : string) : string :=
  "py_library(" +:+ nl
  +:+ "    name = " +:+ dq +:+ extra +:+ dq +:+ "," +:+ nl
  +:+ "    deps = [" +:+ nl
  +:+ "        " +:+ dq +:+ ":pkg" +:+ dq +:+ "," +:+ deps +:+ nl
  +:+ "    ]," +:+ nl
  +:+ ")".

(** The outer template. [str.format] writes [None] as the four letters. *)
Definition build_file (requirements : option string) (dependencies extras : string)
    : string :=
  nl
  +:+ "package(default_visibility = [" +:+ dq +:+ "//visibility:public" +:+ dq +:+ "])" +:+ nl
  +:+ nl
  +:+ "load(" +:+ dq +:+ "@rules_python//python:defs.bzl" +:+ dq +:+ ", "
      +:+ dq +:+ "py_library" +:+ dq +:+ ")" +:+ nl
  +:+ "load(" +:+ dq +:+ default "None" requirements +:+ dq +:+ ", "
      +:+ dq +:+ "requirement" +:+ dq +:+ ")" +:+ nl
  +:+ nl
  +:+ "py_library(" +:+ nl
  +:+ "    name = " +:+ dq +:+ "pkg" +:+ dq +:+ "," +:+ nl
  +:+ "    srcs = glob([" +:+ dq +:+ "**/*.py" +:+ dq +:+ "])," +:+ nl
  +:+ "    data = glob([" +:+ dq +:+ "**/*" +:+ dq +:+ "], exclude=["
      +:+ dq +:+ "**/*.py" +:+ dq +:+ ", " +:+ dq +:+ "**/* *" +:+ dq +:+ ", "
      +:+ dq +:+ "BUILD" +:+ dq +:+ ", " +:+ dq +:+ "WORKSPACE" +:+ dq +:+ "])," +:+ nl
  +:+ "    # This makes this directory a top-level in the python import" +:+ nl
  +:+ "    # search path for anything that depends on this." +:+ nl
  +:+ "    imports = [" +:+ dq +:+ "." +:+ dq +:+ "]," +:+ nl
  +:+ "    deps = [" +:+ dependencies +:+ "]," +:+ nl
  +:+ ")" +:+ nl
  +:+ extras.

(** The list comprehension over [args.extras or []]: one call of
    [whl.dependencies(extra)] for each, in order. *)
Fixpoint extra_targets (whl : Wheel.t) (extras : list string) : IO (list string) :=
  match extras with
  | [] => mret []
  | extra :: rest =>
      deps ← on_store (Wheel.dependencies whl (Some extra));
      targets ← extra_targets whl rest;
      mret (extra_target extra
              (join "," (requirement_call <$> iteration (Some extra) deps))
            :: targets)
  end.

(** The targets as a function of the record: what [extra_targets] returns
    when every reading of the archive gives that record
    ([extra_targets_run] below). *)
Fixpoint targets_value (record : Metadata.t Requirement.t) (extras : list string)
    : result (list string) :=
  match extras with
  | [] => Ok []
  | extra :: rest =>
      deps ← Wheel.dependencies_of record (Some extra);
      targets ← targets_value record rest;
      Ok (extra_target extra
            (join "," (requirement_call <$> iteration (Some extra) deps))
          :: targets)
  end.

Definition main (args : Args) : IO unit :=
  let whl := Wheel.Wheel (whl args) in
  expand whl (directory args);;
  with_open (path_join (directory args) "BUILD")
    (dependencies ← on_store (Wheel.dependencies whl None);
     targets ← extra_targets whl (default [] (extras args));
     on_world (write (path_join (directory args) "BUILD")
                 (build_file (requirements args)
                    (join "," (requirement_call <$> iteration None dependencies))
                    (join (nl +:+ nl) targets)))).

End main.

(** A file system for closed examples: a map from paths to texts. Extraction
    adds the file [directory/EXTRACTED]; sets are iterated in the order of
    [elements]. *)
Definition files_system : System :=
  {| world := gmap string string;
     extractall := fun _ directory w =>
       (<[path_join directory "EXTRACTED" := EmptyString]> w, Ok ());
     open_w := fun path w => (<[path := EmptyString]> w, Ok ());
     write := fun path text w => (<[path := default EmptyString (w !! path) +:+ text]> w, Ok ());
     close := fun _ w => w;
     iteration := fun _ s => elements s |}.

End Cli.

(** * Theorems *)

(** ** Results *)

Lemma bind_Ok {A B} (f : A -> result B) (r : result A) (b : B) :
  r ≫= f = Ok b <-> exists a, r = Ok a /\ f a = Ok b.
Proof.
  destruct r as [a|e]; simpl; split.
  - intros Hf. exists a. auto.
  - intros (a' & [= <-] & Hf). exact Hf.
  - discriminate.
  - intros (a' & [=] & _).
Qed.

Lemma is_Ok_Ok {A} (a : A) : is_Ok (Ok a).
Proof. exists a. reflexivity. Qed.

(** ** File names *)

Lemma split_no_separator (sep : ascii) (s : string) :
  Py.contains sep s = false -> Py.split sep s = [s].
Proof.
  induction s as [|c s IH]; simpl; [reflexivity|].
  intros Hc. apply orb_false_iff in Hc as [Hsep Hrest].
  rewrite Hsep, (IH Hrest). reflexivity.
Qed.

Lemma split_with_separator (sep : ascii) (s : string) :
  Py.contains sep s = true ->
  exists a b rest, Py.split sep s = a :: b :: rest.
Proof.
  induction s as [|c s IH]; simpl; [discriminate|].
  destruct (Ascii.eqb c sep) eqn:Hsep; simpl.
  - intros _. destruct (Py.split sep s) as [|b rest] eqn:Hs.
    + destruct s; simpl in Hs; [discriminate|].
      destruct (Ascii.eqb a sep); [discriminate|].
      destruct (Py.split sep s); discriminate.
    + eauto.
  - intros Hc. destruct (IH Hc) as (a & b & rest & ->). eauto.
Qed.

Lemma re_sub_class_escape (s : string) :
  Py.re_sub_class ["-"; "."; "+"]%char "_" s = Spec.escape s.
Proof.
  induction s as [|c s IH]; simpl; [reflexivity|].
  rewrite IH. unfold Spec.escape_char.
  destruct (Ascii.eqb_spec c "-") as [->|H1]; [reflexivity|].
  destruct (Ascii.eqb_spec c ".") as [->|H2]; [reflexivity|].
  destruct (Ascii.eqb_spec c "+") as [->|H3]; [reflexivity|].
  rewrite bool_decide_eq_false_2; [reflexivity|].
  rewrite !elem_of_cons, elem_of_nil. tauto.
Qed.

Lemma escape_clean (c : ascii) (s : string) :
  c ∈ ["-"; "."; "+"]%char -> Py.contains c (Spec.escape s) = false.
Proof.
  intros Hc. induction s as [|c' s IH]; simpl; [reflexivity|].
  rewrite IH, orb_false_r. unfold Spec.escape_char.
  rewrite !elem_of_cons, elem_of_nil in Hc.
  destruct (Ascii.eqb_spec c' "-") as [->|H1];
    [destruct Hc as [->|[->|[->|[]]]]; reflexivity|].
  destruct (Ascii.eqb_spec c' ".") as [->|H2];
    [destruct Hc as [->|[->|[->|[]]]]; reflexivity|].
  destruct (Ascii.eqb_spec c' "+") as [->|H3];
    [destruct Hc as [->|[->|[->|[]]]]; reflexivity|].
  simpl. apply Ascii.eqb_neq. destruct Hc as [->|[->|[->|[]]]]; assumption.
Qed.

(** C6. Whenever the base file name has a hyphen, [distribution] and
    [version] return its first two hyphen-separated parts and
    [repository_name] returns ["pypi__{distribution}_{version}"] with every
    [-], [.] and [+] replaced by [_], so that none of the three characters
    is left in the key; for [google_cloud-0.27.0-py2.py3-none-any] the
    parts are [google_cloud] and [0.27.0] and the key is
    [pypi__google_cloud_0_27_0]. *)
Theorem repository_name_escapes :
  (forall self : Wheel.t,
     Py.contains "-" (Wheel.basename self) = true ->
     exists d v,
       Wheel.distribution self = Ok d /\
       Wheel.version self = Ok v /\
       Wheel.repository_name self = Ok (Spec.repository_key d v) /\
       forall c, c ∈ ["-"; "."; "+"]%char ->
                 Py.contains c (Spec.repository_key d v) = false) /\
  Wheel.distribution (Wheel.Wheel "google_cloud-0.27.0-py2.py3-none-any") = Ok "google_cloud" /\
  Wheel.version (Wheel.Wheel "google_cloud-0.27.0-py2.py3-none-any") = Ok "0.27.0" /\
  Wheel.repository_name (Wheel.Wheel "google_cloud-0.27.0-py2.py3-none-any")
  = Ok "pypi__google_cloud_0_27_0".
Proof.
  split; [|repeat split; vm_compute; reflexivity].
  intros self Hh.
  destruct (split_with_separator _ _ Hh) as (d & v & rest & Hs).
  assert (Hd : Wheel.distribution self = Ok d)
    by (unfold Wheel.distribution; rewrite Hs; reflexivity).
  assert (Hv : Wheel.version self = Ok v)
    by (unfold Wheel.version; rewrite Hs; reflexivity).
  exists d, v. unfold Wheel.repository_name. rewrite Hd, Hv.
  cbn [mbind result_bind]. rewrite re_sub_class_escape.
  repeat split. intros c Hc. apply escape_clean, Hc.
Qed.

Lemma repository_name_escapes_witness :
  exists d v,
    Wheel.distribution (Wheel.Wheel "/whl/six-1.12.0-py2.py3-none-any.whl") = Ok d /\
    Wheel.version (Wheel.Wheel "/whl/six-1.12.0-py2.py3-none-any.whl") = Ok v /\
    Wheel.repository_name (Wheel.Wheel "/whl/six-1.12.0-py2.py3-none-any.whl")
    = Ok (Spec.repository_key d v) /\
    forall c, c ∈ ["-"; "."; "+"]%char -> Py.contains c (Spec.repository_key d v) = false.
Proof.
  apply (proj1 repository_name_escapes
           (Wheel.Wheel "/whl/six-1.12.0-py2.py3-none-any.whl")).
  vm_compute. reflexivity.
Defined.

(** C9. When the base file name has no hyphen, [distribution] returns the
    whole base name and [version] raises [IndexError], the error of the
    list index itself: no check of the file-name convention comes first
    (so [repository_name] and [_dist_info] raise the same error). *)
Theorem version_without_hyphen (self : Wheel.t) :
  Py.contains "-" (Wheel.basename self) = false ->
  Wheel.distribution self = Ok (Wheel.basename self) /\
  Wheel.version self = Raise IndexError /\
  Wheel.repository_name self = Raise IndexError /\
  Wheel._dist_info self = Raise IndexError.
Proof.
  intros Hh.
  unfold Wheel.repository_name, Wheel._dist_info, Wheel.distribution, Wheel.version.
  rewrite (split_no_separator _ _ Hh). repeat split.
Qed.

Lemma version_without_hyphen_witness :
  Wheel.distribution (Wheel.Wheel "/my-wheels/package.whl") = Ok "package.whl" /\
  Wheel.version (Wheel.Wheel "/my-wheels/package.whl") = Raise IndexError /\
  Wheel.repository_name (Wheel.Wheel "/my-wheels/package.whl") = Raise IndexError /\
  Wheel._dist_info (Wheel.Wheel "/my-wheels/package.whl") = Raise IndexError.
Proof.
  apply (version_without_hyphen (Wheel.Wheel "/my-wheels/package.whl")).
  vm_compute. reflexivity.
Defined.

(** ** The resolver *)

Section resolver.

Context `{Library}.

Lemma body_unconditional (extra : option string) (r : Requirement.t) :
  Requirement.marker r = None -> Requirement.extras r = [] ->
  Wheel.dependencies_body extra r = Ok true.
Proof.
  intros Hm He. unfold Wheel.dependencies_body. rewrite Hm, He. simpl.
  rewrite !andb_false_r. reflexivity.
Qed.

Lemma body_absent_skips (extra : option string) (r : Requirement.t) :
  Py.truth_opt_str extra = false -> Requirement.extras r <> [] ->
  Wheel.dependencies_body extra r = Ok false.
Proof.
  intros Hx He. unfold Wheel.dependencies_body. rewrite Hx.
  destruct (Requirement.extras r); [congruence | reflexivity].
Qed.

Lemma body_other_extra_skips (extra : string) (r : Requirement.t) :
  Requirement.extras r <> [] -> extra ∉ Requirement.extras r ->
  Wheel.dependencies_body (Some extra) r = Ok false.
Proof.
  intros He Hn.
  destruct (Py.truth_opt_str (Some extra)) eqn:Hx;
    [|apply body_absent_skips; assumption].
  unfold Wheel.dependencies_body. rewrite Hx.
  destruct (Requirement.extras r) as [|e es] eqn:Hes; [congruence|].
  unfold Wheel.in_tuple. rewrite bool_decide_eq_false_2 by assumption.
  reflexivity.
Qed.

(** Without extras of its own a requirement passes the first two tests. *)
Lemma body_no_extras (extra : option string) (r : Requirement.t) :
  Requirement.extras r = [] ->
  Wheel.dependencies_body extra r =
  match Requirement.marker r with
  | Some m => b ← evaluate m {[ "extra" := extra ]}; if negb b then Ok false else Ok true
  | None => Ok true
  end.
Proof.
  intros He. unfold Wheel.dependencies_body. rewrite He. simpl.
  rewrite !andb_false_r. reflexivity.
Qed.

Lemma dependencies_loop_Ok (extra : option string) (reqs : list Requirement.t)
    (acc s : gset string) :
  Wheel.dependencies_loop extra reqs acc = Ok s ->
  forall p, p ∈ s <->
            p ∈ acc \/
            exists q, q ∈ reqs /\ Wheel.dependencies_body extra q = Ok true
                      /\ Requirement.project_name q = p.
Proof.
  revert acc. induction reqs as [|r reqs IH]; intros acc; simpl.
  - intros [= <-] p. split; [auto|]. intros [Hp|(q & Hq & _)]; [exact Hp|].
    inversion Hq.
  - intros Hrun. apply bind_Ok in Hrun as (add & Hbody & Hrest).
    intros p. rewrite (IH _ Hrest p). split.
    + intros [Hp|(q & Hq & Hb & Hn)].
      * destruct add; [|auto].
        apply elem_of_union in Hp as [Hp|Hp]; [auto|].
        apply elem_of_singleton in Hp. right. exists r.
        split; [apply list_elem_of_here|]. auto.
      * right. exists q. split; [apply list_elem_of_further, Hq|]. auto.
    + intros [Hp|(q & Hq & Hb & Hn)].
      * left. destruct add; [apply elem_of_union; auto | exact Hp].
      * apply elem_of_cons in Hq as [->|Hq].
        -- left. rewrite Hb in Hbody. injection Hbody as <-.
           apply elem_of_union. right. apply elem_of_singleton. auto.
        -- right. exists q. auto.
Qed.

Lemma dependencies_loop_total (extra : option string) (reqs : list Requirement.t)
    (acc : gset string) :
  (forall q, q ∈ reqs -> is_Ok (Wheel.dependencies_body extra q)) ->
  is_Ok (Wheel.dependencies_loop extra reqs acc).
Proof.
  revert acc. induction reqs as [|r reqs IH]; intros acc Hall; simpl.
  - apply is_Ok_Ok.
  - destruct (Hall r (list_elem_of_here _ _)) as [add ->]. simpl.
    apply IH. intros q Hq. apply Hall, list_elem_of_further, Hq.
Qed.

Lemma dependencies_loop_ext (extra1 extra2 : option string)
    (reqs : list Requirement.t) (acc : gset string) :
  (forall q, q ∈ reqs ->
             Wheel.dependencies_body extra1 q = Wheel.dependencies_body extra2 q) ->
  Wheel.dependencies_loop extra1 reqs acc = Wheel.dependencies_loop extra2 reqs acc.
Proof.
  revert acc. induction reqs as [|r reqs IH]; intros acc Hall; simpl; [reflexivity|].
  rewrite (Hall r (list_elem_of_here _ _)).
  destruct (Wheel.dependencies_body extra2 r) as [add|e]; simpl; [|reflexivity].
  apply IH. intros q Hq. apply Hall, list_elem_of_further, Hq.
Qed.

End resolver.

(** C2. A requirement of the record with no marker and no extras passes
    every test of the loop whatever is requested (no extra, or any extra
    name, the empty one included): its project name is in every set
    [dependencies] returns, and [dependencies] does return one unless the
    marker of another requirement raises. *)
Theorem unconditional_requirement_included `{Library}
    (record : Metadata.t Requirement.t) (i : nat) (r : Requirement.t)
    (extra : option string) :
  Metadata.run_requires record !! i = Some r ->
  Requirement.marker r = None ->
  Requirement.extras r = [] ->
  Wheel.dependencies_body extra r = Ok true /\
  (forall s, Wheel.dependencies_of record extra = Ok s ->
             Requirement.project_name r ∈ s) /\
  ((forall q, q ∈ Metadata.run_requires record ->
              is_Ok (Wheel.dependencies_body extra q)) ->
   exists s, Wheel.dependencies_of record extra = Ok s /\
             Requirement.project_name r ∈ s).
Proof.
  intros Hi Hm He.
  pose proof (body_unconditional extra r Hm He) as Hbody.
  assert (Hin : forall s, Wheel.dependencies_of record extra = Ok s ->
                          Requirement.project_name r ∈ s).
  { intros s Hs. apply (dependencies_loop_Ok _ _ _ _ Hs). right.
    exists r. split; [eapply list_elem_of_lookup_2, Hi|]. auto. }
  split; [exact Hbody|]. split; [exact Hin|].
  intros Hall. destruct (dependencies_loop_total extra _ ∅ Hall) as [s Hs].
  exists s. split; [exact Hs | apply Hin, Hs].
Qed.

Lemma unconditional_requirement_included_witness :
  let L := Reference.library [] in
  Wheel.dependencies_body (Some "security") Reference.req_six = Ok true /\
  (forall s, Wheel.dependencies_of Reference.example_record (Some "security") = Ok s ->
             "six" ∈ s) /\
  ((forall q, q ∈ Metadata.run_requires Reference.example_record ->
              is_Ok (Wheel.dependencies_body (Some "security") q)) ->
   exists s, Wheel.dependencies_of Reference.example_record (Some "security") = Ok s /\
             "six" ∈ s).
Proof.
  intros L.
  apply (unconditional_requirement_included (H := L)
           Reference.example_record 0 Reference.req_six (Some "security"));
    reflexivity.
Defined.

(** C3, as the specification words it, fails: a requirement without extras
    is kept when an extra is requested. *)
Lemma empty_extras_not_skipped :
  let L := Reference.library [] in
  let record := Metadata.Metadata None [Reference.req_six] ∅ in
  Requirement.extras Reference.req_six = [] /\
  Spec.rule2_skips "test" Reference.req_six = true /\
  Wheel.dependencies_body (Some "test") Reference.req_six = Ok true /\
  Wheel.dependencies_of record (Some "test") = Ok {[ "six" ]}.
Proof. repeat split; vm_compute; reflexivity. Qed.

(** C3, amended. Under a requested extra (any string), a requirement whose
    extras are not empty and do not hold the requested extra is skipped;
    when that holds of every requirement of the record with the same
    project name, the name is not in the set [dependencies] returns. *)
Theorem other_extra_requirement_skipped `{Library}
    (record : Metadata.t Requirement.t) (i : nat) (r : Requirement.t)
    (extra : string) :
  Metadata.run_requires record !! i = Some r ->
  Requirement.extras r <> [] ->
  extra ∉ Requirement.extras r ->
  Wheel.dependencies_body (Some extra) r = Ok false /\
  forall s,
    Wheel.dependencies_of record (Some extra) = Ok s ->
    (forall q, q ∈ Metadata.run_requires record ->
               Requirement.project_name q = Requirement.project_name r ->
               Requirement.extras q <> [] /\ extra ∉ Requirement.extras q) ->
    Requirement.project_name r ∉ s.
Proof.
  intros Hi He Hn. split; [apply body_other_extra_skips; assumption|].
  intros s Hs Hall Hp.
  apply (dependencies_loop_Ok _ _ _ _ Hs) in Hp as [Hp|(q & Hq & Hb & Hname)].
  - apply not_elem_of_empty in Hp. exact Hp.
  - destruct (Hall q Hq Hname) as [He' Hn'].
    rewrite (body_other_extra_skips extra q He' Hn') in Hb. discriminate.
Qed.

Lemma other_extra_requirement_skipped_witness :
  let L := Reference.library [] in
  let mock := Requirement.with_extras ["test"] Reference.req_mock in
  Wheel.dependencies_body (Some "security") mock = Ok false /\
  forall s,
    Wheel.dependencies_of Reference.example_record (Some "security") = Ok s ->
    (forall q, q ∈ Metadata.run_requires Reference.example_record ->
               Requirement.project_name q = Requirement.project_name mock ->
               Requirement.extras q <> [] /\ "security" ∉ Requirement.extras q) ->
    "mock" ∉ s.
Proof.
  intros L mock.
  apply (other_extra_requirement_skipped (H := L) Reference.example_record 1 mock "security").
  - reflexivity.
  - discriminate.
  - compute_done.
Defined.

(** ** Runs on the object store *)

Lemma M_bind_run {A B} (m : M A) (f : A -> M B) (s : store) :
  (m ≫= f) s =
  match m s with
  | (s', Ok a) => f a s'
  | (s', Raise e) => (s', Raise e)
  end.
Proof. reflexivity. Qed.

Lemma new_all_run (rs : list Requirement.t) (s : store) :
  new_all rs s = (s ++ rs, Ok (seq (List.length s) (List.length rs))).
Proof.
  revert s. induction rs as [|r rs IH]; intros s; simpl.
  - rewrite app_nil_r. reflexivity.
  - rewrite M_bind_run. unfold new at 1. rewrite M_bind_run, IH.
    rewrite length_app, Nat.add_1_r, <- app_assoc. reflexivity.
Qed.

Lemma deref_middle (pre post : store) (r : Requirement.t) :
  deref (pre ++ r :: post) (List.length pre) = Ok r.
Proof. unfold deref. rewrite list_lookup_middle; reflexivity. Qed.

Lemma read_all_run (pre rs post : store) :
  read_all (seq (List.length pre) (List.length rs)) (pre ++ rs ++ post)
  = (pre ++ rs ++ post, Ok rs).
Proof.
  revert pre. induction rs as [|r rs IH]; intros pre; simpl; [reflexivity|].
  rewrite M_bind_run. unfold read at 1. rewrite deref_middle, M_bind_run.
  specialize (IH (pre ++ [r])).
  rewrite length_app, Nat.add_1_r, <- app_assoc in IH. simpl in IH.
  rewrite IH. reflexivity.
Qed.

Lemma set_extras_middle (pre post : store) (r : Requirement.t) (es : list string) :
  set_extras (List.length pre) es (pre ++ r :: post)
  = (pre ++ Requirement.with_extras es r :: post, Ok ()).
Proof.
  unfold set_extras. f_equal.
  rewrite <- (Nat.add_0_r (List.length pre)), alter_app_r. reflexivity.
Qed.

Lemma find_marker_extra_list (items : list Markers.item) :
  Wheel.find_marker_extra (Markers.List items)
  = Py.index_last items ≫= Wheel.find_marker_extra.
Proof.
  induction items as [|x [|y items] IH]; try reflexivity.
  exact IH.
Qed.

Lemma rightmost_list (items : list Markers.item) :
  Spec.rightmost (Markers.List items)
  = match Py.index_last items with
    | Ok x => Spec.rightmost x
    | Raise _ => None
    end.
Proof.
  induction items as [|x [|y items] IH]; try reflexivity.
  exact IH.
Qed.

Lemma read_middle (pre post : store) (r : Requirement.t) :
  read (List.length pre) (pre ++ r :: post) = (pre ++ r :: post, Ok r).
Proof. unfold read. rewrite deref_middle. reflexivity. Qed.

(** One turn of the loop of [_parse_metadata] on the object in the cell
    after [pre]. *)
Lemma parse_metadata_loop_step (pre rs : store) (r : Requirement.t)
    (extras : gset string) :
  Wheel._parse_metadata_loop (seq (List.length pre) (S (List.length rs))) extras
    (pre ++ r :: rs)
  = match Wheel.backfill r with
    | Ok r' =>
        Wheel._parse_metadata_loop (seq (List.length (pre ++ [r'])) (List.length rs))
          (extras ∪ list_to_set (Requirement.extras r')) ((pre ++ [r']) ++ rs)
    | Raise e => (pre ++ r :: rs, Raise e)
    end.
Proof.
  assert (Hrest : forall r',
    (r0 ← read (List.length pre);
     Wheel._parse_metadata_loop (seq (S (List.length pre)) (List.length rs))
       (extras ∪ list_to_set (Requirement.extras r0))) (pre ++ r' :: rs)
    = Wheel._parse_metadata_loop (seq (List.length (pre ++ [r'])) (List.length rs))
        (extras ∪ list_to_set (Requirement.extras r')) ((pre ++ [r']) ++ rs)).
  { intros r'. rewrite M_bind_run, read_middle.
    rewrite length_app, Nat.add_1_r, <- app_assoc. reflexivity. }
  cbn [Wheel._parse_metadata_loop seq].
  rewrite M_bind_run, read_middle. cbv beta iota.
  unfold Wheel.backfill. destruct (Requirement.marker r) as [m|].
  - rewrite !M_bind_run. unfold lift at 1.
    destruct (Wheel.find_marker_extra (Markers.List (Markers._markers m)))
      as [marker_extra|e]; [|reflexivity].
    cbn [mbind result_bind]. cbv beta iota.
    destruct (Py.truth_opt_str marker_extra).
    + rewrite set_extras_middle. apply Hrest.
    + apply Hrest.
  - rewrite M_bind_run. apply Hrest.
Qed.

(** The loop of [_parse_metadata] on freshly created objects: it leaves
    [backfill] of each in its cell and returns the union of their extras. *)
Lemma parse_metadata_loop_run (rs : list Requirement.t) :
  forall (pre : store) (extras : gset string),
    match Wheel.backfill_all rs extras with
    | Ok (rs', extras') =>
        Wheel._parse_metadata_loop (seq (List.length pre) (List.length rs)) extras (pre ++ rs)
        = (pre ++ rs', Ok extras')
    | Raise e =>
        snd (Wheel._parse_metadata_loop (seq (List.length pre) (List.length rs)) extras
               (pre ++ rs)) = Raise e
    end.
Proof.
  induction rs as [|r rs IH]; intros pre extras; [reflexivity|].
  cbn [Wheel.backfill_all List.length].
  rewrite parse_metadata_loop_step.
  destruct (Wheel.backfill r) as [r'|e]; cbn [mbind result_bind]; [|reflexivity].
  specialize (IH (pre ++ [r']) (extras ∪ list_to_set (Requirement.extras r'))).
  destruct (Wheel.backfill_all rs _) as [[rs' extras']|e]; cbn [mbind result_bind].
  - rewrite IH, <- app_assoc. reflexivity.
  - exact IH.
Qed.

(** ** The record as a function of the text *)

Lemma backfill_all_Ok (rs : list Requirement.t) :
  forall (extras : gset string) (rs' : list Requirement.t) (extras' : gset string),
    Wheel.backfill_all rs extras = Ok (rs', extras') ->
    Forall2 (fun r r' => Wheel.backfill r = Ok r') rs rs' /\
    extras' = extras ∪ ⋃ ((fun r' => list_to_set (Requirement.extras r')) <$> rs').
Proof.
  induction rs as [|r rs IH]; intros extras rs' extras'; simpl.
  - intros [= <- <-]. split; [constructor|]. simpl. rewrite union_empty_r_L. reflexivity.
  - intros Hrun. apply bind_Ok in Hrun as (r' & Hr & Hrun).
    apply bind_Ok in Hrun as ([rs'' extras''] & Hrest & [= <- <-]).
    destruct (IH _ _ _ Hrest) as [Hall ->]. split; [constructor; assumption|].
    simpl. rewrite (assoc_L (∪)). reflexivity.
Qed.

Lemma backfill_all_length (rs rs' : list Requirement.t) (extras extras' : gset string) :
  Wheel.backfill_all rs extras = Ok (rs', extras') -> List.length rs' = List.length rs.
Proof.
  intros Hrun. apply backfill_all_Ok in Hrun as [Hall _].
  symmetry. eapply Forall2_length, Hall.
Qed.

Section parsing.

Context `{Library}.

Lemma parse_metadata_unfold (content : string) (s : store) :
  Wheel._parse_metadata content s
  = match parse_requirements
            (email.get_all (parsestr content) "Requires" []
             ++ email.get_all (parsestr content) "Requires-Dist" []) with
    | Ok parsed =>
        let requirements := seq (List.length s) (List.length parsed) in
        match Wheel._parse_metadata_loop requirements ∅ (s ++ parsed) with
        | (s', Ok extras) =>
            (s', Ok (Metadata.Metadata (email.get (parsestr content) "name")
                       requirements extras))
        | (s', Raise e) => (s', Raise e)
        end
    | Raise e => (s, Raise e)
    end.
Proof.
  unfold Wheel._parse_metadata. rewrite M_bind_run. unfold lift.
  destruct (parse_requirements _) as [parsed|e]; [|reflexivity].
  rewrite M_bind_run, new_all_run, M_bind_run. reflexivity.
Qed.

Lemma parse_metadata_run (content : string) (s : store) :
  match Wheel.parse_value content with
  | Ok record =>
      Wheel._parse_metadata content s
      = (s ++ Metadata.run_requires record,
         Ok (Metadata.Metadata (Metadata.name record)
               (seq (List.length s) (List.length (Metadata.run_requires record)))
               (Metadata.extras record)))
  | Raise e => snd (Wheel._parse_metadata content s) = Raise e
  end.
Proof.
  rewrite parse_metadata_unfold. unfold Wheel.parse_value.
  destruct (parse_requirements _) as [parsed|e]; cbn [mbind result_bind]; [|reflexivity].
  pose proof (parse_metadata_loop_run parsed s ∅) as Hloop.
  destruct (Wheel.backfill_all parsed ∅) as [[rs' extras']|e] eqn:Hall;
    cbn [mbind result_bind].
  - cbv zeta. rewrite Hloop. cbn [Metadata.run_requires Metadata.name Metadata.extras].
    rewrite (backfill_all_length _ _ _ _ Hall). reflexivity.
  - cbv zeta.
    destruct (Wheel._parse_metadata_loop _ _ _) as [s' [extras'|e']];
      simpl in Hloop; [discriminate|]. simpl. congruence.
Qed.

Lemma parse_record_run (content : string) (s : store) :
  match Wheel.parse_value content with
  | Ok record =>
      Wheel.parse_record content s = (s ++ Metadata.run_requires record, Ok record)
  | Raise e => snd (Wheel.parse_record content s) = Raise e
  end.
Proof.
  pose proof (parse_metadata_run content s) as Hrun.
  unfold Wheel.parse_record. rewrite M_bind_run.
  destruct (Wheel.parse_value content) as [[name rs extras]|e].
  - rewrite Hrun. unfold snapshot. rewrite M_bind_run.
    cbn [Metadata.run_requires Metadata.name Metadata.extras].
    pose proof (read_all_run s rs []) as Hread. rewrite app_nil_r in Hread.
    rewrite Hread. reflexivity.
  - destruct (Wheel._parse_metadata content s) as [s' [md|e']];
      simpl in Hrun; [discriminate|]. simpl. congruence.
Qed.

(** The record a run returns, read in any later store that extends the
    run's own. *)
Lemma observe_parse_metadata (content : string) (s later : store) :
  Wheel.observe (fst (Wheel._parse_metadata content s) ++ later)
    (snd (Wheel._parse_metadata content s))
  = Wheel.parse_value content.
Proof.
  pose proof (parse_metadata_run content s) as Hrun.
  destruct (Wheel.parse_value content) as [[name rs extras]|e].
  - rewrite Hrun. cbn [fst snd Wheel.observe]. unfold snapshot.
    rewrite M_bind_run. cbn [Metadata.run_requires Metadata.name Metadata.extras].
    rewrite <- app_assoc, read_all_run. reflexivity.
  - rewrite Hrun. reflexivity.
Qed.

(** A run only adds objects to the store. *)
Lemma parse_metadata_extends (content : string) (s : store) :
  is_Ok (Wheel.parse_value content) ->
  exists added, fst (Wheel._parse_metadata content s) = s ++ added.
Proof.
  intros [record Hv]. pose proof (parse_metadata_run content s) as Hrun.
  rewrite Hv in Hrun. rewrite Hrun. eauto.
Qed.

End parsing.

(** C8. Two runs of [_parse_metadata] on one text, the second in the store
    the first left: the two results, read in the final store, are the same
    record (same name, same requirement attributes in the same order, same
    set of extras) or the same error; the second run leaves the first
    record as it was; and either is the record determined by the text
    alone, whatever the store held before. *)
Theorem parse_metadata_twice `{Library} (content : string) (s : store) :
  let run1 := Wheel._parse_metadata content s in
  let run2 := Wheel._parse_metadata content (fst run1) in
  Wheel.observe (fst run2) (snd run1) = Wheel.observe (fst run2) (snd run2) /\
  Wheel.observe (fst run1) (snd run1) = Wheel.observe (fst run2) (snd run1) /\
  Wheel.observe (fst run2) (snd run2) = Wheel.parse_value content.
Proof.
  intros run1 run2.
  pose proof (observe_parse_metadata content s []) as Hfirst.
  pose proof (observe_parse_metadata content (fst run1) []) as Hsecond.
  rewrite app_nil_r in Hfirst, Hsecond. fold run1 in Hfirst. fold run2 in Hsecond.
  destruct (Wheel.parse_value content) as [record|e] eqn:Hv.
  - destruct (parse_metadata_extends content (fst run1)) as [added Hadd];
      [rewrite Hv; apply is_Ok_Ok|].
    fold run2 in Hadd.
    pose proof (observe_parse_metadata content s added) as Hlater.
    fold run1 in Hlater. rewrite <- Hadd, Hv in Hlater.
    rewrite Hfirst, Hsecond, Hlater. auto.
  - assert (Hr1 : snd run1 = Raise e).
    { pose proof (parse_metadata_run content s) as Hrun. rewrite Hv in Hrun. exact Hrun. }
    rewrite Hsecond, Hr1. auto.
Qed.

(** ** Header fields *)

Lemma get_all_loop_filter (name : string) (headers : list (string * string))
    (values : list string) :
  email.get_all_loop name headers values
  = values ++ (filter (fun kv => Py.lower kv.1 = name) headers).*2.
Proof.
  revert values. induction headers as [|[k v] headers IH]; intros values; simpl.
  - rewrite app_nil_r. reflexivity.
  - rewrite filter_cons. simpl.
    destruct (String.eqb_spec (Py.lower k) name) as [Heq|Hne].
    + rewrite decide_True by assumption. rewrite IH, <- app_assoc. reflexivity.
    + rewrite decide_False by assumption. apply IH.
Qed.

Lemma get_all_field_values (self : email.Message) (name : string) :
  email.get_all self name [] = Spec.field_values name (email._headers self).
Proof.
  unfold email.get_all, Spec.field_values. rewrite get_all_loop_filter. simpl.
  destruct ((filter _ _).*2); reflexivity.
Qed.

Lemma backfill_same (r r' : Requirement.t) :
  Wheel.backfill r = Ok r' -> Wheel.same_requirement r r'.
Proof.
  unfold Wheel.backfill, Wheel.same_requirement. destruct (Requirement.marker r) as [m|] eqn:Hm.
  - intros Hb. apply bind_Ok in Hb as (marker_extra & _ & [= <-]).
    destruct (Py.truth_opt_str marker_extra); simpl.
    + repeat split; [exact Hm | apply prefix_app_r; reflexivity].
    + repeat split; [exact Hm | reflexivity].
  - intros [= <-]. repeat split; [exact Hm | reflexivity].
Qed.

Lemma parse_record_Ok `{Library} (content : string) (s s' : store)
    (record : Metadata.t Requirement.t) :
  Wheel.parse_record content s = (s', Ok record) ->
  Wheel.parse_value content = Ok record.
Proof.
  intros Hrun. pose proof (parse_record_run content s) as Hv.
  destruct (Wheel.parse_value content) as [record'|e].
  - rewrite Hrun in Hv. congruence.
  - rewrite Hrun in Hv. discriminate.
Qed.

(** C7. The lines [_parse_metadata] hands to [parse_requirements] are the
    values of the [Requires] fields followed by the values of the
    [Requires-Dist] fields, each group in the order of the header block;
    the requirements of the record are the objects [parse_requirements]
    makes of these lines, in that order (with their project names and
    markers, and extras only extended), and an error of
    [parse_requirements] is the error of the whole. *)
Theorem requires_before_requires_dist `{Library} (content : string) (s : store) :
  let headers := email._headers (parsestr content) in
  let lines := Spec.field_values "Requires" headers
               ++ Spec.field_values "Requires-Dist" headers in
  email.get_all (parsestr content) "Requires" []
  ++ email.get_all (parsestr content) "Requires-Dist" [] = lines /\
  match parse_requirements lines with
  | Ok parsed =>
      match Wheel.backfill_all parsed ∅ with
      | Ok (rs, extras) =>
          Wheel.parse_record content s
          = (s ++ rs, Ok (Metadata.Metadata (email.get (parsestr content) "name") rs extras))
          /\ Forall2 Wheel.same_requirement parsed rs
      | Raise e => snd (Wheel.parse_record content s) = Raise e
      end
  | Raise e => snd (Wheel.parse_record content s) = Raise e
  end.
Proof.
  intros headers lines.
  assert (Hlines : email.get_all (parsestr content) "Requires" []
                   ++ email.get_all (parsestr content) "Requires-Dist" [] = lines)
    by (rewrite !get_all_field_values; reflexivity).
  split; [exact Hlines|].
  pose proof (parse_record_run content s) as Hrun.
  unfold Wheel.parse_value in Hrun. rewrite Hlines in Hrun.
  destruct (parse_requirements lines) as [parsed|e]; cbn [mbind result_bind] in Hrun;
    [|exact Hrun].
  destruct (Wheel.backfill_all parsed ∅) as [[rs extras]|e] eqn:Hall;
    cbn [mbind result_bind] in Hrun; [|exact Hrun].
  split; [exact Hrun|].
  apply backfill_all_Ok in Hall as [Hall _].
  eapply Forall2_impl; [exact Hall|]. intros r r'. apply backfill_same.
Qed.

(** A text whose [Requires] field stands between two [Requires-Dist]
    fields: its requirement comes first. *)
Example requires_first :
  let L := Reference.library [] in
  let content :=
    "Requires-Dist: " +:+ Reference.line_six +:+ Reference.nl
    +:+ "REQUIRES: " +:+ Reference.line_mock +:+ Reference.nl
    +:+ "requires-dist: " +:+ Reference.line_requests +:+ Reference.nl in
  (Metadata.run_requires <$> snd (Wheel.parse_record content []))
  = Ok [Requirement.with_extras ["test"] Reference.req_mock;
        Reference.req_six;
        Requirement.with_extras ["security"; "security"] Reference.req_requests].
Proof. vm_compute. reflexivity. Qed.

(** ** The three-requirement example *)

Lemma body_matching_extra `{Library} (extra : string) (r : Requirement.t) :
  Py.truth_str extra = true -> extra ∈ Requirement.extras r ->
  Wheel.dependencies_body (Some extra) r =
  match Requirement.marker r with
  | Some m =>
      b ← evaluate m {[ "extra" := Some extra ]};
      if negb b then Ok false else Ok true
  | None => Ok true
  end.
Proof.
  intros Hx Hin. unfold Wheel.dependencies_body. simpl. rewrite Hx.
  unfold Wheel.in_tuple. rewrite bool_decide_eq_true_2 by assumption.
  simpl. rewrite andb_false_r. reflexivity.
Qed.

(** C1. A METADATA text with no [Requires] field and the [Requires-Dist]
    values [six], [mock; extra == "test"] and
    [requests[security]; extra == "security"], read with libraries that
    parse the three lines into the three objects of PEP 508 and evaluate
    [extra == "x"] as true under the request [x]: the record's set of
    extras is [{test, security}]; [dependencies] returns [{six}] without
    an extra, [{six, mock}] for [test] and [{six, requests}] for
    [security]. *)
Theorem three_requirements_example `{Library} (content : string) (s : store) :
  email.get_all (parsestr content) "Requires" [] = [] ->
  email.get_all (parsestr content) "Requires-Dist" []
  = [Reference.line_six; Reference.line_mock; Reference.line_requests] ->
  parse_requirements [Reference.line_six; Reference.line_mock; Reference.line_requests]
  = Ok [Reference.req_six; Reference.req_mock; Reference.req_requests] ->
  evaluate {| Markers._markers := [Reference.extra_is "==" "test"] |}
    {[ "extra" := Some "test" ]} = Ok true ->
  evaluate {| Markers._markers := [Reference.extra_is "==" "security"] |}
    {[ "extra" := Some "security" ]} = Ok true ->
  exists record,
    Wheel.parse_record content s = (s ++ Metadata.run_requires record, Ok record) /\
    Wheel.dependencies_of record None = Ok {[ "six" ]} /\
    Wheel.dependencies_of record (Some "test") = Ok {[ "six"; "mock" ]} /\
    Wheel.dependencies_of record (Some "security") = Ok {[ "six"; "requests" ]} /\
    Metadata.extras record = {[ "test"; "security" ]}.
Proof.
  intros Hrequires Hdist Hparse Htest Hsecurity.
  set (mock := Requirement.with_extras ["test"] Reference.req_mock).
  set (requests := Requirement.with_extras ["security"; "security"] Reference.req_requests).
  assert (Hvalue : Wheel.parse_value content
                   = Ok (Metadata.Metadata (email.get (parsestr content) "name")
                           [Reference.req_six; mock; requests]
                           {[ "test"; "security" ]})).
  { unfold Wheel.parse_value. rewrite Hrequires, Hdist. simpl app. rewrite Hparse.
    generalize (email.get (parsestr content) "name"). intros name.
    vm_compute. reflexivity. }
  pose proof (parse_record_run content s) as Hrun. rewrite Hvalue in Hrun.
  eexists. split; [exact Hrun|].
  assert (Hsix : forall extra, Wheel.dependencies_body extra Reference.req_six = Ok true)
    by (intros extra; apply body_unconditional; reflexivity).
  assert (Hmock_none : Wheel.dependencies_body None mock = Ok false)
    by (apply body_absent_skips; [reflexivity | discriminate]).
  assert (Hrequests_none : Wheel.dependencies_body None requests = Ok false)
    by (apply body_absent_skips; [reflexivity | discriminate]).
  assert (Hmock_test : Wheel.dependencies_body (Some "test") mock = Ok true).
  { rewrite body_matching_extra; [|reflexivity|compute_done].
    simpl Requirement.marker. cbv beta iota. rewrite Htest. reflexivity. }
  assert (Hrequests_test : Wheel.dependencies_body (Some "test") requests = Ok false)
    by (apply body_other_extra_skips; [discriminate | compute_done]).
  assert (Hmock_security : Wheel.dependencies_body (Some "security") mock = Ok false)
    by (apply body_other_extra_skips; [discriminate | compute_done]).
  assert (Hrequests_security :
            Wheel.dependencies_body (Some "security") requests = Ok true).
  { rewrite body_matching_extra; [|reflexivity|compute_done].
    simpl Requirement.marker. cbv beta iota. rewrite Hsecurity. reflexivity. }
  unfold Wheel.dependencies_of.
  cbn [Metadata.run_requires Metadata.extras Wheel.dependencies_loop].
  rewrite !Hsix, Hmock_none, Hrequests_none, Hmock_test, Hrequests_test,
    Hmock_security, Hrequests_security.
  cbn [mbind result_bind Requirement.project_name Reference.req_six mock requests
       Requirement.with_extras Reference.req_mock Reference.req_requests].
  rewrite !union_empty_l_L. repeat split.
Qed.

Lemma three_requirements_example_witness :
  let L := Reference.library Reference.example_files in
  exists record,
    Wheel.parse_record Reference.example_metadata []
    = ([] ++ Metadata.run_requires record, Ok record) /\
    Wheel.dependencies_of record None = Ok {[ "six" ]} /\
    Wheel.dependencies_of record (Some "test") = Ok {[ "six"; "mock" ]} /\
    Wheel.dependencies_of record (Some "security") = Ok {[ "six"; "requests" ]} /\
    Metadata.extras record = {[ "test"; "security" ]}.
Proof.
  intros L.
  apply (three_requirements_example (H := L) Reference.example_metadata []);
    vm_compute; reflexivity.
Defined.

(** The same example through the archive: [Wheel.dependencies] and
    [Wheel.extras] on a wheel file that holds the text. *)
Example three_requirements_wheel :
  let L := Reference.library Reference.example_files in
  let whl := Wheel.Wheel "/whl/example-1.0-py3-none-any.whl" in
  snd (Wheel.dependencies whl None []) = Ok {[ "six" ]} /\
  snd (Wheel.dependencies whl (Some "test") []) = Ok {[ "six"; "mock" ]} /\
  snd (Wheel.dependencies whl (Some "security") []) = Ok {[ "six"; "requests" ]} /\
  snd (Wheel.extras whl []) = Ok {[ "test"; "security" ]} /\
  snd (Wheel.name whl []) = Ok (Some "example").
Proof. repeat split; vm_compute; reflexivity. Qed.

(** ** Implicit extras *)

Lemma item_rect_list (P : Markers.item -> Prop) :
  (forall lhs op rhs, P (Markers.Tuple lhs op rhs)) ->
  (forall items, Forall P items -> P (Markers.List items)) ->
  (forall s, P (Markers.Str s)) ->
  forall it, P it.
Proof.
  intros HT HL HS. fix IH 1. intros [lhs op rhs|items|s].
  - apply HT.
  - apply HL. induction items as [|x items IHitems]; constructor.
    + apply IH.
    + exact IHitems.
  - apply HS.
Qed.

Lemma index_last_Ok {A} (xs : list A) (x : A) :
  Py.index_last xs = Ok x -> x ∈ xs.
Proof.
  induction xs as [|y [|z xs] IH]; simpl.
  - discriminate.
  - intros [= ->]. apply list_elem_of_here.
  - intros Hx. apply list_elem_of_further, IH, Hx.
Qed.

Lemma index_last_Raise {A} (xs : list A) (e : exn) :
  Py.index_last xs = Raise e -> e = IndexError.
Proof.
  induction xs as [|y [|z xs] IH]; simpl.
  - intros [= <-]. reflexivity.
  - discriminate.
  - exact IH.
Qed.

(** [find_marker_extra] looks at the leaf the marker ends in. *)
Lemma find_marker_extra_rightmost (it : Markers.item) :
  Wheel.find_marker_extra it
  = match Spec.rightmost it with
    | Some (Markers.Tuple (Markers.VariableNode v) _ rhs) =>
        if String.eqb v "extra" then Ok (Some (Markers.value rhs)) else Ok None
    | Some _ => Ok None
    | None => Raise IndexError
    end.
Proof.
  induction it as [lhs op rhs|items IH|s] using item_rect_list.
  - destruct lhs; reflexivity.
  - rewrite find_marker_extra_list, rightmost_list.
    destruct (Py.index_last items) as [x|e] eqn:Hlast; simpl.
    + rewrite Forall_forall in IH. apply IH, index_last_Ok, Hlast.
    + apply index_last_Raise in Hlast as ->. reflexivity.
  - reflexivity.
Qed.

Lemma backfill_leaves (r r' : Requirement.t) :
  Wheel.backfill r = Ok r' -> Wheel.loop_leaves r r'.
Proof.
  intros Hb pre extras.
  pose proof (parse_metadata_loop_step pre [] r extras) as Hstep.
  rewrite Hb in Hstep. etransitivity; [exact Hstep|].
  rewrite app_nil_r. reflexivity.
Qed.

(** What the loop makes of a requirement, by the leaf its marker ends in. *)
Lemma backfill_by_leaf (r : Requirement.t) (m : Markers.Marker) (leaf : Markers.item) :
  Requirement.marker r = Some m ->
  Spec.rightmost (Markers.List (Markers._markers m)) = Some leaf ->
  Wheel.backfill r
  = Ok match leaf with
       | Markers.Tuple (Markers.VariableNode v) _ rhs =>
           if String.eqb v "extra" && Py.truth_str (Markers.value rhs)
           then Requirement.with_extras (Requirement.extras r ++ [Markers.value rhs]) r
           else r
       | _ => r
       end.
Proof.
  intros Hm Hleaf. unfold Wheel.backfill.
  rewrite Hm, find_marker_extra_rightmost, Hleaf.
  destruct leaf as [[v| |] op rhs|items|s]; try reflexivity.
  destruct (String.eqb v "extra"); [|reflexivity].
  simpl. destruct (Py.truth_str (Markers.value rhs)); reflexivity.
Qed.

(** C4, as the specification words it, fails on three parsed requirements:
    an [extra] leaf inside a trailing group is attached though the
    right-most top-level sub-expression is no leaf; an extra already
    present is appended again; an empty literal is not attached. *)
Lemma implicit_extra_differs :
  (Wheel.backfill Reference.req_group
   = Ok (Requirement.with_extras ["test"] Reference.req_group) /\
   Spec.backfill Reference.req_group = Reference.req_group) /\
  (Wheel.backfill Reference.req_requests
   = Ok (Requirement.with_extras ["security"; "security"] Reference.req_requests) /\
   Spec.backfill Reference.req_requests = Reference.req_requests) /\
  (Wheel.backfill Reference.req_empty = Ok Reference.req_empty /\
   Spec.backfill Reference.req_empty
   = Requirement.with_extras [""] Reference.req_empty).
Proof. repeat split; vm_compute; reflexivity. Qed.

(** C4, amended. For a requirement with a marker, let [leaf] be the leaf
    its marker ends in, following last elements through nested groups.
    When [leaf] is [extra == "<literal>"] with a non-empty literal, the loop
    appends the literal to the requirement's extras, present already or
    not; when the left side of [leaf] is the variable [extra] and its right
    side is empty, and when [leaf] has another left side, the loop leaves
    the requirement as it is. *)
Theorem implicit_extra_attached (r : Requirement.t) (m : Markers.Marker)
    (leaf : Markers.item) :
  Requirement.marker r = Some m ->
  Spec.rightmost (Markers.List (Markers._markers m)) = Some leaf ->
  (forall lit,
     leaf = Markers.Tuple (Markers.VariableNode "extra") (Markers.OpNode "==")
              (Markers.ValueNode lit) ->
     lit <> "" ->
     Wheel.loop_leaves r
       (Requirement.with_extras (Requirement.extras r ++ [lit]) r)) /\
  (forall op rhs,
     leaf = Markers.Tuple (Markers.VariableNode "extra") op rhs ->
     Markers.value rhs = "" ->
     Wheel.loop_leaves r r) /\
  ((forall op rhs, leaf <> Markers.Tuple (Markers.VariableNode "extra") op rhs) ->
   Wheel.loop_leaves r r).
Proof.
  intros Hm Hleaf.
  pose proof (backfill_by_leaf r m leaf Hm Hleaf) as Hb.
  repeat split.
  - intros lit -> Hlit. apply backfill_leaves. rewrite Hb. simpl.
    unfold Py.truth_str. apply String.eqb_neq in Hlit. rewrite Hlit. reflexivity.
  - intros op rhs -> Hrhs. apply backfill_leaves. rewrite Hb. simpl.
    rewrite Hrhs. reflexivity.
  - intros Hother. apply backfill_leaves. rewrite Hb.
    destruct leaf as [[v| |] op rhs|items|s]; try reflexivity.
    destruct (String.eqb_spec v "extra") as [->|Hv]; [|reflexivity].
    destruct (Hother op rhs). reflexivity.
Qed.

Lemma implicit_extra_attached_witness :
  (forall lit,
     Reference.extra_is "==" "test"
     = Markers.Tuple (Markers.VariableNode "extra") (Markers.OpNode "==")
         (Markers.ValueNode lit) ->
     lit <> "" ->
     Wheel.loop_leaves Reference.req_group
       (Requirement.with_extras (Requirement.extras Reference.req_group ++ [lit])
          Reference.req_group)) /\
  (forall op rhs,
     Reference.extra_is "==" "test"
     = Markers.Tuple (Markers.VariableNode "extra") op rhs ->
     Markers.value rhs = "" ->
     Wheel.loop_leaves Reference.req_group Reference.req_group) /\
  ((forall op rhs,
      Reference.extra_is "==" "test"
      <> Markers.Tuple (Markers.VariableNode "extra") op rhs) ->
   Wheel.loop_leaves Reference.req_group Reference.req_group).
Proof.
  apply (implicit_extra_attached Reference.req_group
           {| Markers._markers :=
                [Reference.os_name_is "nt"; Markers.Str "or";
                 Markers.List [Reference.os_name_is "posix"; Markers.Str "and";
                               Reference.extra_is "==" "test"]] |}
           (Reference.extra_is "==" "test"));
    reflexivity.
Defined.

(** The operator of the leaf is not looked at: [extra != "test"] attaches
    [test] as well. *)
Example operator_not_inspected :
  Wheel.backfill
    (Requirement.Requirement "mock" []
       (Some {| Markers._markers := [Reference.extra_is "!=" "test"] |}))
  = Ok (Requirement.Requirement "mock" ["test"]
          (Some {| Markers._markers := [Reference.extra_is "!=" "test"] |})).
Proof. reflexivity. Qed.

(** ** Requests outside the record's extras *)

Section requests.

Context `{Library}.

Lemma markers_agree_body (extra1 extra2 : option string) (q : Requirement.t) :
  Wheel.markers_agree extra1 extra2 q = true ->
  Requirement.extras q = [] ->
  Wheel.dependencies_body extra1 q = Wheel.dependencies_body extra2 q.
Proof.
  intros Hagree He. rewrite !body_no_extras by assumption.
  unfold Wheel.markers_agree in Hagree. rewrite He in Hagree.
  destruct (Requirement.marker q) as [m|]; [|reflexivity].
  apply bool_decide_eq_true in Hagree. rewrite Hagree. reflexivity.
Qed.

(** The set of extras of a record holds the extras of its requirements. *)
Lemma parse_value_extras (content : string) (record : Metadata.t Requirement.t)
    (q : Requirement.t) (e : string) :
  Wheel.parse_value content = Ok record ->
  q ∈ Metadata.run_requires record -> e ∈ Requirement.extras q ->
  e ∈ Metadata.extras record.
Proof.
  unfold Wheel.parse_value. intros Hv Hq He.
  apply bind_Ok in Hv as (parsed & _ & Hv).
  apply bind_Ok in Hv as ([rs extras] & Hall & [= <-]). simpl in *.
  apply backfill_all_Ok in Hall as [_ ->].
  apply elem_of_union. right. apply elem_of_union_list.
  exists (list_to_set (Requirement.extras q)). split.
  - apply list_elem_of_fmap. exists q. auto.
  - apply elem_of_list_to_set, He.
Qed.

End requests.

(** C5, as the specification words it, fails: a marker that tests [extra]
    before its last leaf attaches no extra, so [test] is unknown to the
    record and yet brings [mock] in. *)
Lemma unknown_extra_adds_name :
  let L := Reference.library [] in
  let record := Metadata.Metadata (Some "example") [Reference.req_posix] ∅ in
  Wheel.parse_record (Reference.metadata_of_line Reference.line_posix) []
  = ([Reference.req_posix], Ok record) /\
  Metadata.extras record = ∅ /\
  Wheel.dependencies_of record None = Ok ∅ /\
  Wheel.dependencies_of record (Some "test") = Ok {[ "mock" ]}.
Proof. repeat split; vm_compute; reflexivity. Qed.

(** C5, amended. For a record [_parse_metadata] built and a requested
    extra outside its set of extras, [dependencies] raises no error of its
    own and skips every requirement that has extras; when the markers of
    the requirements without extras evaluate under the request as they do
    without one, it returns what it returns without an extra. *)
Theorem unknown_extra_as_base `{Library} (content : string) (s s' : store)
    (record : Metadata.t Requirement.t) (extra : string) :
  Wheel.parse_record content s = (s', Ok record) ->
  extra ∉ Metadata.extras record ->
  (forall q, q ∈ Metadata.run_requires record -> Requirement.extras q <> [] ->
             Wheel.dependencies_body (Some extra) q = Ok false) /\
  (forallb (Wheel.markers_agree (Some extra) None) (Metadata.run_requires record) = true ->
   Wheel.dependencies_of record (Some extra) = Wheel.dependencies_of record None).
Proof.
  intros Hrun Hunknown. apply parse_record_Ok in Hrun.
  assert (Hskip : forall q, q ∈ Metadata.run_requires record ->
                            Requirement.extras q <> [] ->
                            Wheel.dependencies_body (Some extra) q = Ok false).
  { intros q Hq He. apply body_other_extra_skips; [exact He|].
    intros Hin. apply Hunknown. eapply parse_value_extras; eassumption. }
  split; [exact Hskip|].
  intros Hagree. apply dependencies_loop_ext. intros q Hq.
  destruct (Requirement.extras q) as [|e es] eqn:He.
  - apply markers_agree_body; [|exact He].
    rewrite forallb_forall in Hagree. apply Hagree, list_elem_of_In, Hq.
  - rewrite Hskip; [|exact Hq|congruence].
    symmetry. apply body_absent_skips; [reflexivity|congruence].
Qed.

Lemma unknown_extra_as_base_witness :
  let L := Reference.library [] in
  (forall q, q ∈ Metadata.run_requires Reference.example_record ->
             Requirement.extras q <> [] ->
             Wheel.dependencies_body (Some "docs") q = Ok false) /\
  (forallb (Wheel.markers_agree (Some "docs") None)
     (Metadata.run_requires Reference.example_record) = true ->
   Wheel.dependencies_of Reference.example_record (Some "docs")
   = Wheel.dependencies_of Reference.example_record None).
Proof.
  intros L.
  apply (unknown_extra_as_base (H := L) Reference.example_metadata []
           [Reference.req_six;
            Requirement.with_extras ["test"] Reference.req_mock;
            Requirement.with_extras ["security"; "security"] Reference.req_requests]
           Reference.example_record "docs").
  - vm_compute. reflexivity.
  - compute_done.
Defined.

(** C10, as stated, fails: a marker that compares [extra] with the empty
    string holds under the request [""] and not without a request. *)
Lemma empty_extra_distinguished :
  let L := Reference.library [] in
  let record := Metadata.Metadata (Some "example") [Reference.req_empty] ∅ in
  Wheel.parse_record (Reference.metadata_of_line Reference.line_empty) []
  = ([Reference.req_empty], Ok record) /\
  Wheel.dependencies_of record None = Ok ∅ /\
  Wheel.dependencies_of record (Some "") = Ok {[ "mock" ]}.
Proof. repeat split; vm_compute; reflexivity. Qed.

(** C10, amended. The request [""] passes the first two tests of the loop
    as no request does: a requirement with extras is skipped under both;
    when the markers of the requirements without extras evaluate under
    [extra = ""] as under [extra = None], [dependencies] returns the same
    for both. *)
Theorem empty_extra_as_absent `{Library} (record : Metadata.t Requirement.t) :
  forallb (Wheel.markers_agree (Some "") None) (Metadata.run_requires record) = true ->
  Wheel.dependencies_of record (Some "") = Wheel.dependencies_of record None /\
  forall q, Requirement.extras q <> [] ->
            Wheel.dependencies_body (Some "") q = Ok false /\
            Wheel.dependencies_body None q = Ok false.
Proof.
  intros Hagree. split.
  - apply dependencies_loop_ext. intros q Hq.
    destruct (Requirement.extras q) as [|e es] eqn:He.
    + apply markers_agree_body; [|exact He].
      rewrite forallb_forall in Hagree. apply Hagree, list_elem_of_In, Hq.
    + rewrite !body_absent_skips; try reflexivity; congruence.
  - intros q He. split; apply body_absent_skips; try reflexivity; exact He.
Qed.

Lemma empty_extra_as_absent_witness :
  let L := Reference.library [] in
  Wheel.dependencies_of Reference.example_record (Some "")
  = Wheel.dependencies_of Reference.example_record None /\
  forall q, Requirement.extras q <> [] ->
            Wheel.dependencies_body (Some "") q = Ok false /\
            Wheel.dependencies_body None q = Ok false.
Proof.
  intros L.
  apply (empty_extra_as_absent (H := L) Reference.example_record).
  vm_compute. reflexivity.
Defined.

(** * Further properties of the code *)

(** ** File names, continued *)

Lemma contains_append (c : ascii) (a b : string) :
  Py.contains c (a +:+ b) = Py.contains c a || Py.contains c b.
Proof.
  induction a as [|c' a IH]; simpl; [reflexivity|].
  rewrite IH, orb_assoc. reflexivity.
Qed.

Lemma split_not_nil (sep : ascii) (s : string) : Py.split sep s <> [].
Proof.
  destruct s as [|c s]; simpl; [discriminate|].
  destruct (Ascii.eqb c sep); [discriminate|].
  destruct (Py.split sep s); discriminate.
Qed.

(** The first part of a split: the text before the first separator, and
    the rest is the split of the text after it. *)
Lemma split_head (sep : ascii) (s a : string) (rest : list string) :
  Py.split sep s = a :: rest ->
  Py.contains sep a = false /\
  (rest = [] /\ s = a \/
   exists tail, s = a +:+ String sep tail /\ Py.split sep tail = rest).
Proof.
  revert a rest. induction s as [|c s IH]; intros a rest; simpl.
  - intros [= <- <-]. auto.
  - destruct (Ascii.eqb_spec c sep) as [->|Hne].
    + intros [= <- <-]. split; [reflexivity|]. right. exists s. auto.
    + destruct (Py.split sep s) as [|p ps] eqn:Hs;
        [destruct (split_not_nil _ _ Hs)|].
      intros [= <- <-]. destruct (IH p ps eq_refl) as [Hp Hrest].
      split; [simpl; rewrite Hp; apply Ascii.eqb_neq in Hne; rewrite Hne; reflexivity|].
      destruct Hrest as [[-> ->]|(tail & -> & Htail)]; [auto|].
      right. exists tail. auto.
Qed.

Lemma basename_no_slash (p : string) : Py.contains "/" (Py.basename p) = false.
Proof.
  induction p as [|c p IH]; simpl; [reflexivity|].
  destruct (Ascii.eqb c "/" || Py.contains "/" p) eqn:Hc; [exact IH | exact Hc].
Qed.

Lemma string_append_assoc (a b c : string) : (a +:+ b) +:+ c = a +:+ (b +:+ c).
Proof.
  induction a as [|x a IH]; [reflexivity|].
  change (String x ((a +:+ b) +:+ c) = String x (a +:+ (b +:+ c))).
  f_equal. exact IH.
Qed.

Lemma string_append_nil_r (a : string) : a +:+ "" = a.
Proof.
  induction a as [|x a IH]; [reflexivity|].
  change (String x (a +:+ "") = String x a). f_equal. exact IH.
Qed.

Lemma re_sub_class_append (cls : list ascii) (repl a b : string) :
  Py.re_sub_class cls repl (a +:+ b)
  = Py.re_sub_class cls repl a +:+ Py.re_sub_class cls repl b.
Proof.
  induction a as [|c a IH]; simpl; [reflexivity|].
  rewrite IH. destruct (bool_decide (c ∈ cls)); [|reflexivity].
  rewrite string_append_assoc. reflexivity.
Qed.

(** [distribution] never raises: it returns the text of the base name
    before its first hyphen (the whole base name when there is none), which
    holds neither a hyphen nor a slash. *)
Theorem distribution_before_first_hyphen (self : Wheel.t) :
  exists d,
    Wheel.distribution self = Ok d /\
    Py.contains "-" d = false /\
    Py.contains "/" d = false /\
    (Wheel.basename self = d \/
     exists tail, Wheel.basename self = d +:+ "-" +:+ tail).
Proof.
  unfold Wheel.distribution.
  destruct (Py.split "-" (Wheel.basename self)) as [|d rest] eqn:Hs;
    [destruct (split_not_nil _ _ Hs)|].
  exists d. destruct (split_head _ _ _ _ Hs) as [Hd Hrest].
  split; [reflexivity|]. split; [exact Hd|].
  assert (Hbase : Wheel.basename self = d \/
                  exists tail, Wheel.basename self = d +:+ "-" +:+ tail).
  { destruct Hrest as [[_ ->]|(tail & -> & _)]; [auto|]. right. exists tail. reflexivity. }
  split; [|exact Hbase].
  pose proof (basename_no_slash (Wheel.path self)) as Hslash.
  fold (Wheel.basename self) in Hslash.
  destruct Hbase as [Hb|[tail Hb]]; rewrite Hb in Hslash; [exact Hslash|].
  rewrite contains_append in Hslash. apply orb_false_iff in Hslash as [Hslash _].
  exact Hslash.
Qed.

(** When the base name has a hyphen, it reads [d-v] followed by nothing or
    by a hyphen and more, with no hyphen in [d] or [v]; [version] returns
    [v] and [_dist_info] returns [d-v.dist-info], whatever follows (the
    case of the source comment: [google_cloud-0.27.0-py2.py3-none-any.whl]
    gives [google_cloud-0.27.0.dist-info]). *)
Theorem dist_info_from_first_two_parts (self : Wheel.t) :
  Py.contains "-" (Wheel.basename self) = true ->
  exists d v tail,
    Wheel.basename self = d +:+ "-" +:+ v +:+ tail /\
    (tail = "" \/ exists more, tail = "-" +:+ more) /\
    Py.contains "-" d = false /\
    Py.contains "-" v = false /\
    Wheel.distribution self = Ok d /\
    Wheel.version self = Ok v /\
    Wheel._dist_info self = Ok (d +:+ "-" +:+ v +:+ ".dist-info").
Proof.
  intros Hh. destruct (split_with_separator _ _ Hh) as (d & v & rest & Hs).
  destruct (split_head _ _ _ _ Hs) as [Hd [[[=] _]|(after & Hbase & Hafter)]].
  destruct (split_head _ _ _ _ Hafter) as [Hv Hrest].
  assert (Hdist : Wheel.distribution self = Ok d)
    by (unfold Wheel.distribution; rewrite Hs; reflexivity).
  assert (Hver : Wheel.version self = Ok v)
    by (unfold Wheel.version; rewrite Hs; reflexivity).
  assert (Hinfo : Wheel._dist_info self = Ok (d +:+ "-" +:+ v +:+ ".dist-info"))
    by (unfold Wheel._dist_info; rewrite Hdist, Hver; reflexivity).
  destruct Hrest as [[_ ->]|(more & -> & _)].
  - exists d, v, "".
    split; [rewrite Hbase, string_append_nil_r; reflexivity|].
    split; [left; reflexivity|]. repeat split; assumption.
  - exists d, v, ("-" +:+ more).
    split; [rewrite Hbase; reflexivity|].
    split; [right; exists more; reflexivity|]. repeat split; assumption.
Qed.

Lemma dist_info_from_first_two_parts_witness :
  exists d v tail,
    Wheel.basename (Wheel.Wheel "/tmp/google_cloud-0.27.0-py2.py3-none-any.whl")
    = d +:+ "-" +:+ v +:+ tail /\
    (tail = "" \/ exists more, tail = "-" +:+ more) /\
    Py.contains "-" d = false /\
    Py.contains "-" v = false /\
    Wheel.distribution (Wheel.Wheel "/tmp/google_cloud-0.27.0-py2.py3-none-any.whl") = Ok d /\
    Wheel.version (Wheel.Wheel "/tmp/google_cloud-0.27.0-py2.py3-none-any.whl") = Ok v /\
    Wheel._dist_info (Wheel.Wheel "/tmp/google_cloud-0.27.0-py2.py3-none-any.whl")
    = Ok (d +:+ "-" +:+ v +:+ ".dist-info").
Proof.
  apply (dist_info_from_first_two_parts
           (Wheel.Wheel "/tmp/google_cloud-0.27.0-py2.py3-none-any.whl")).
  vm_compute. reflexivity.
Defined.

(** The repository name is [pypi__] followed by the escaped text [d-v]:
    two wheels have the same repository name exactly when their [d-v]
    agree after escaping, so names that differ only in [-], [.], [+] and
    [_] collide. *)
Theorem repository_name_collides (w1 w2 : Wheel.t) (d1 v1 d2 v2 : string) :
  Wheel.distribution w1 = Ok d1 -> Wheel.version w1 = Ok v1 ->
  Wheel.distribution w2 = Ok d2 -> Wheel.version w2 = Ok v2 ->
  Wheel.repository_name w1
  = Ok ("pypi__" +:+ Py.re_sub_class ["-"; "."; "+"]%char "_" (d1 +:+ "-" +:+ v1)) /\
  (Wheel.repository_name w1 = Wheel.repository_name w2 <->
   Py.re_sub_class ["-"; "."; "+"]%char "_" (d1 +:+ "-" +:+ v1)
   = Py.re_sub_class ["-"; "."; "+"]%char "_" (d2 +:+ "-" +:+ v2)).
Proof.
  intros Hd1 Hv1 Hd2 Hv2.
  assert (Hkey : forall w d v,
            Wheel.distribution w = Ok d -> Wheel.version w = Ok v ->
            Wheel.repository_name w
            = Ok ("pypi__" +:+ Py.re_sub_class ["-"; "."; "+"]%char "_" (d +:+ "-" +:+ v))).
  { intros w d v Hd Hv. unfold Wheel.repository_name. rewrite Hd, Hv.
    cbn [mbind result_bind]. f_equal.
    rewrite !re_sub_class_append. reflexivity. }
  split; [apply Hkey; assumption|].
  rewrite (Hkey _ _ _ Hd1 Hv1), (Hkey _ _ _ Hd2 Hv2). split.
  - intros [= Heq]. exact Heq.
  - intros ->. reflexivity.
Qed.

Lemma repository_name_collides_witness :
  Wheel.repository_name (Wheel.Wheel "zope.interface-4.6.0-cp37.whl")
  = Ok ("pypi__" +:+ Py.re_sub_class ["-"; "."; "+"]%char "_"
                       ("zope.interface" +:+ "-" +:+ "4.6.0")) /\
  (Wheel.repository_name (Wheel.Wheel "zope.interface-4.6.0-cp37.whl")
   = Wheel.repository_name (Wheel.Wheel "zope_interface-4+6_0-py2.whl") <->
   Py.re_sub_class ["-"; "."; "+"]%char "_" ("zope.interface" +:+ "-" +:+ "4.6.0")
   = Py.re_sub_class ["-"; "."; "+"]%char "_" ("zope_interface" +:+ "-" +:+ "4+6_0")).
Proof.
  apply (repository_name_collides
           (Wheel.Wheel "zope.interface-4.6.0-cp37.whl")
           (Wheel.Wheel "zope_interface-4+6_0-py2.whl")
           "zope.interface" "4.6.0" "zope_interface" "4+6_0");
    reflexivity.
Defined.

(** ** [find_marker_extra] and the extras of a record *)

Lemma index_last_snoc {A} (xs : list A) (x : A) : Py.index_last (xs ++ [x]) = Ok x.
Proof.
  induction xs as [|y xs IH]; [reflexivity|].
  simpl. destruct (xs ++ [x]) eqn:Hxs; [destruct xs; discriminate|]. exact IH.
Qed.

(** [find_marker_extra] looks at the last element of a list only, whatever
    stands before it; on the empty list it raises [IndexError], and it
    raises no other error on any marker. *)
Theorem find_marker_extra_last_element :
  (forall xs x,
     Wheel.find_marker_extra (Markers.List (xs ++ [x])) = Wheel.find_marker_extra x) /\
  Wheel.find_marker_extra (Markers.List []) = Raise IndexError /\
  (forall it e, Wheel.find_marker_extra it = Raise e -> e = IndexError).
Proof.
  split; [|split; [reflexivity|]].
  - intros xs x. rewrite find_marker_extra_list, index_last_snoc. reflexivity.
  - intros it e. rewrite find_marker_extra_rightmost.
    destruct (Spec.rightmost it) as [[[v| |] op rhs|items|s]|]; try discriminate.
    + destruct (String.eqb v "extra"); discriminate.
    + intros [= <-]. reflexivity.
Qed.

Section record_extras.

Context `{Library}.

Lemma parse_value_backfilled (content : string) (record : Metadata.t Requirement.t)
    (i : nat) (r : Requirement.t) :
  Wheel.parse_value content = Ok record ->
  Metadata.run_requires record !! i = Some r ->
  exists parsed r0,
    parse_requirements
      (email.get_all (parsestr content) "Requires" []
       ++ email.get_all (parsestr content) "Requires-Dist" []) = Ok parsed /\
    parsed !! i = Some r0 /\ Wheel.backfill r0 = Ok r.
Proof.
  unfold Wheel.parse_value. intros Hv Hi.
  apply bind_Ok in Hv as (parsed & Hparsed & Hv).
  apply bind_Ok in Hv as ([rs extras] & Hall & [= <-]). simpl in Hi.
  apply backfill_all_Ok in Hall as [Hall _].
  destruct (Forall2_lookup_r _ _ _ _ _ Hall Hi) as (r0 & Hr0 & Hb).
  exists parsed, r0. auto.
Qed.

Lemma parse_value_extras_inv (content : string) (record : Metadata.t Requirement.t)
    (e : string) :
  Wheel.parse_value content = Ok record ->
  e ∈ Metadata.extras record ->
  exists q, q ∈ Metadata.run_requires record /\ e ∈ Requirement.extras q.
Proof.
  unfold Wheel.parse_value. intros Hv He.
  apply bind_Ok in Hv as (parsed & _ & Hv).
  apply bind_Ok in Hv as ([rs extras] & Hall & [= <-]). simpl in *.
  apply backfill_all_Ok in Hall as [_ ->].
  apply elem_of_union in He as [He|He]; [apply not_elem_of_empty in He; destruct He|].
  apply elem_of_union_list in He as (X & HX & He).
  apply list_elem_of_fmap in HX as (q & -> & Hq).
  exists q. split; [exact Hq|]. apply elem_of_list_to_set in He. exact He.
Qed.

End record_extras.

(** The set [extras] of a record [_parse_metadata] built holds exactly the
    extras its requirement objects carry after the loop, and each of these
    was an extra of the parsed requirement or is the non-empty value
    [find_marker_extra] found in its marker. *)
Theorem record_extras_exact `{Library} (content : string) (s s' : store)
    (record : Metadata.t Requirement.t) :
  Wheel.parse_record content s = (s', Ok record) ->
  (forall e, e ∈ Metadata.extras record <->
             exists q, q ∈ Metadata.run_requires record /\ e ∈ Requirement.extras q) /\
  (forall i q e,
     Metadata.run_requires record !! i = Some q -> e ∈ Requirement.extras q ->
     exists parsed r0,
       parse_requirements
         (email.get_all (parsestr content) "Requires" []
          ++ email.get_all (parsestr content) "Requires-Dist" []) = Ok parsed /\
       parsed !! i = Some r0 /\
       (e ∈ Requirement.extras r0 \/
        e <> "" /\ exists m, Requirement.marker r0 = Some m /\
                   Wheel.find_marker_extra (Markers.List (Markers._markers m))
                   = Ok (Some e))).
Proof.
  intros Hrun. apply parse_record_Ok in Hrun. split.
  - intros e. split.
    + intros He. eapply parse_value_extras_inv; eassumption.
    + intros (q & Hq & He). eapply parse_value_extras; eassumption.
  - intros i q e Hi He.
    destruct (parse_value_backfilled _ _ _ _ Hrun Hi) as (parsed & r0 & Hp & Hr0 & Hb).
    exists parsed, r0. split; [exact Hp|]. split; [exact Hr0|].
    unfold Wheel.backfill in Hb. destruct (Requirement.marker r0) as [m|] eqn:Hm.
    + apply bind_Ok in Hb as (marker_extra & Hfind & [= <-]).
      destruct marker_extra as [lit|]; simpl in He.
      * destruct (Py.truth_str lit) eqn:Hlit; simpl in He; [|auto].
        apply elem_of_app in He as [He|He]; [auto|].
        apply list_elem_of_singleton in He as ->. right.
        split; [|exists m; auto].
        intros ->. discriminate.
      * auto.
    + injection Hb as <-. auto.
Qed.

Lemma record_extras_exact_witness :
  let L := Reference.library [] in
  (forall e, e ∈ Metadata.extras Reference.example_record <->
             exists q, q ∈ Metadata.run_requires Reference.example_record /\
                       e ∈ Requirement.extras q) /\
  (forall i q e,
     Metadata.run_requires Reference.example_record !! i = Some q ->
     e ∈ Requirement.extras q ->
     exists parsed r0,
       parse_requirements
         (email.get_all (parsestr Reference.example_metadata) "Requires" []
          ++ email.get_all (parsestr Reference.example_metadata) "Requires-Dist" [])
       = Ok parsed /\
       parsed !! i = Some r0 /\
       (e ∈ Requirement.extras r0 \/
        e <> "" /\ exists m, Requirement.marker r0 = Some m /\
                   Wheel.find_marker_extra (Markers.List (Markers._markers m))
                   = Ok (Some e))).
Proof.
  intros L.
  apply (record_extras_exact (H := L) Reference.example_metadata []
           [Reference.req_six;
            Requirement.with_extras ["test"] Reference.req_mock;
            Requirement.with_extras ["security"; "security"] Reference.req_requests]
           Reference.example_record).
  vm_compute. reflexivity.
Defined.

(** A requirement in whose marker [find_marker_extra] finds a non-empty
    value (the marker ends in a comparison of [extra], whatever its
    operator): the value is among its extras and in the record's set; it
    is skipped when no extra or the empty extra is requested; and under the
    request of that value it is kept exactly when its marker evaluates to
    true. *)
Theorem marker_extra_gates `{Library} (content : string) (s s' : store)
    (record : Metadata.t Requirement.t) (i : nat) (r : Requirement.t)
    (m : Markers.Marker) (lit : string) :
  Wheel.parse_record content s = (s', Ok record) ->
  Metadata.run_requires record !! i = Some r ->
  Requirement.marker r = Some m ->
  Wheel.find_marker_extra (Markers.List (Markers._markers m)) = Ok (Some lit) ->
  lit <> "" ->
  lit ∈ Requirement.extras r /\
  lit ∈ Metadata.extras record /\
  Wheel.dependencies_body None r = Ok false /\
  Wheel.dependencies_body (Some "") r = Ok false /\
  Wheel.dependencies_body (Some lit) r
  = (b ← evaluate m {[ "extra" := Some lit ]}; if negb b then Ok false else Ok true).
Proof.
  intros Hrun Hi Hm Hfind Hlit. apply parse_record_Ok in Hrun.
  destruct (parse_value_backfilled _ _ _ _ Hrun Hi) as (parsed & r0 & _ & _ & Hb).
  assert (Hin : lit ∈ Requirement.extras r).
  { destruct (backfill_same _ _ Hb) as (_ & Hmarker & _).
    rewrite Hm in Hmarker. unfold Wheel.backfill in Hb.
    rewrite <- Hmarker, Hfind in Hb. cbn [mbind result_bind] in Hb.
    assert (Htruth : Py.truth_opt_str (Some lit) = true)
      by (simpl; unfold Py.truth_str; apply String.eqb_neq in Hlit; rewrite Hlit;
          reflexivity).
    rewrite Htruth in Hb. injection Hb as <-. simpl.
    apply elem_of_app. right. apply list_elem_of_here. }
  assert (Hne : Requirement.extras r <> [])
    by (intros Hnil; rewrite Hnil in Hin; inversion Hin).
  split; [exact Hin|].
  split; [eapply parse_value_extras; [exact Hrun| |exact Hin];
          eapply list_elem_of_lookup_2, Hi|].
  split; [apply body_absent_skips; [reflexivity|exact Hne]|].
  split; [apply body_absent_skips; [reflexivity|exact Hne]|].
  rewrite body_matching_extra; [rewrite Hm; reflexivity| |exact Hin].
  unfold Py.truth_str. apply String.eqb_neq in Hlit. rewrite Hlit. reflexivity.
Qed.

Lemma marker_extra_gates_witness :
  let L := Reference.library [] in
  let r := Requirement.with_extras ["test"] Reference.req_mock in
  "test" ∈ Requirement.extras r /\
  "test" ∈ Metadata.extras Reference.example_record /\
  Wheel.dependencies_body None r = Ok false /\
  Wheel.dependencies_body (Some "") r = Ok false /\
  Wheel.dependencies_body (Some "test") r
  = (b ← evaluate {| Markers._markers := [Reference.extra_is "==" "test"] |}
         {[ "extra" := Some "test" ]};
     if negb b then Ok false else Ok true).
Proof.
  intros L r.
  apply (marker_extra_gates (H := L) Reference.example_metadata []
           [Reference.req_six;
            Requirement.with_extras ["test"] Reference.req_mock;
            Requirement.with_extras ["security"; "security"] Reference.req_requests]
           Reference.example_record 1 r
           {| Markers._markers := [Reference.extra_is "==" "test"] |} "test").
  - vm_compute. reflexivity.
  - reflexivity.
  - reflexivity.
  - reflexivity.
  - discriminate.
Defined.

(** A METADATA text with no [Requires] and no [Requires-Dist] field: the
    defaults of [get_all] give [parse_requirements] the empty list, the
    record has no requirement and no extra, no object is created, and
    [dependencies] is empty for every request. *)
Theorem no_requirement_fields `{Library} (content : string) (s : store) :
  email.get_all (parsestr content) "Requires" [] = [] ->
  email.get_all (parsestr content) "Requires-Dist" [] = [] ->
  parse_requirements [] = Ok [] ->
  let record := Metadata.Metadata (email.get (parsestr content) "name") [] ∅ in
  Wheel.parse_record content s = (s, Ok record) /\
  forall extra, Wheel.dependencies_of record extra = Ok ∅.
Proof.
  intros Hreq Hdist Hparse record.
  pose proof (parse_record_run content s) as Hrun.
  unfold Wheel.parse_value in Hrun. rewrite Hreq, Hdist in Hrun. simpl app in Hrun.
  rewrite Hparse in Hrun. cbn [mbind result_bind Wheel.backfill_all] in Hrun.
  cbn [Metadata.run_requires] in Hrun. rewrite app_nil_r in Hrun.
  split; [exact Hrun | reflexivity].
Qed.

Lemma no_requirement_fields_witness :
  let L := Reference.library [] in
  let content := "Name: example" +:+ Reference.nl in
  let record := Metadata.Metadata (email.get (parsestr content) "name") [] ∅ in
  Wheel.parse_record content [Reference.req_six] = ([Reference.req_six], Ok record) /\
  forall extra, Wheel.dependencies_of record extra = Ok ∅.
Proof.
  intros L content.
  apply (no_requirement_fields (H := L) content [Reference.req_six]); reflexivity.
Defined.

(** ** The resolver, continued *)

Section resolver_more.

Context `{Library}.

Lemma dependencies_loop_bodies (extra : option string) (reqs : list Requirement.t)
    (acc s : gset string) :
  Wheel.dependencies_loop extra reqs acc = Ok s ->
  forall q, q ∈ reqs -> is_Ok (Wheel.dependencies_body extra q).
Proof.
  revert acc. induction reqs as [|r reqs IH]; intros acc; simpl.
  - intros _ q Hq. inversion Hq.
  - intros Hrun. apply bind_Ok in Hrun as (add & Hbody & Hrest).
    intros q Hq. apply elem_of_cons in Hq as [->|Hq].
    + exists add. exact Hbody.
    + eapply IH; eassumption.
Qed.

(** The body raises exactly when the requirement passes the two tests on
    extras and its marker raises. *)
Lemma body_Raise (extra : option string) (q : Requirement.t) (e : exn) :
  Wheel.dependencies_body extra q = Raise e <->
  (Requirement.extras q = [] \/
   Py.truth_opt_str extra = true /\ Wheel.in_tuple extra (Requirement.extras q) = true) /\
  exists m, Requirement.marker q = Some m /\ evaluate m {[ "extra" := extra ]} = Raise e.
Proof.
  unfold Wheel.dependencies_body.
  destruct (Requirement.extras q) as [|x xs] eqn:He; simpl.
  - rewrite !andb_false_r. destruct (Requirement.marker q) as [m|].
    + split.
      * intros Hb. split; [auto|]. exists m. split; [reflexivity|].
        destruct (evaluate m _) as [[]|e']; simpl in Hb; congruence.
      * intros (_ & m' & [= <-] & ->). reflexivity.
    + split; [discriminate|]. intros (_ & m' & [=] & _).
  - destruct (Py.truth_opt_str extra) eqn:Hx; simpl.
    + destruct (Wheel.in_tuple extra (x :: xs)) eqn:Hin; simpl.
      * destruct (Requirement.marker q) as [m|].
        -- split.
           ++ intros Hb. split; [auto|]. exists m. split; [reflexivity|].
              destruct (evaluate m _) as [[]|e']; simpl in Hb; congruence.
           ++ intros (_ & m' & [= <-] & ->). reflexivity.
        -- split; [discriminate|]. intros (_ & m' & [=] & _).
      * split; [discriminate|]. intros ([[=]|[_ [=]]] & _).
    + split; [discriminate|]. intros ([[=]|[[=] _]] & _).
Qed.

Lemma dependencies_loop_Raise (extra : option string) (reqs : list Requirement.t)
    (acc : gset string) (e : exn) :
  Wheel.dependencies_loop extra reqs acc = Raise e <->
  exists before q after,
    reqs = before ++ q :: after /\
    Forall (fun r => is_Ok (Wheel.dependencies_body extra r)) before /\
    Wheel.dependencies_body extra q = Raise e.
Proof.
  revert acc. induction reqs as [|r reqs IH]; intros acc; simpl.
  - split; [discriminate|]. intros (before & q & after & Heq & _).
    destruct before; discriminate.
  - destruct (Wheel.dependencies_body extra r) as [add|e'] eqn:Hbody; simpl.
    + rewrite IH. split.
      * intros (before & q & after & -> & Hall & Hq).
        exists (r :: before), q, after. split; [reflexivity|]. split; [|exact Hq].
        constructor; [exists add; exact Hbody | exact Hall].
      * intros (before & q & after & Heq & Hall & Hq).
        destruct before as [|r' before]; simpl in Heq; injection Heq as <- ->.
        -- rewrite Hbody in Hq. discriminate.
        -- inversion Hall; subst. exists before, q, after. auto.
    + split.
      * intros [= <-]. exists [], r, reqs. split; [reflexivity|]. split; [constructor|].
        exact Hbody.
      * intros (before & q & after & Heq & Hall & Hq).
        destruct before as [|r' before]; simpl in Heq; injection Heq as <- ->.
        -- rewrite Hbody in Hq. injection Hq as ->. reflexivity.
        -- inversion Hall as [|? ? [add Hadd] ?]; subst. rewrite Hbody in Hadd.
           discriminate.
Qed.

End resolver_more.

(** Two records whose requirement lists hold the same objects, in any
    order and any number of times: when [dependencies] returns a set for
    one, it returns the same set for the other. *)
Theorem dependencies_order_and_repeats `{Library}
    (record1 record2 : Metadata.t Requirement.t) (extra : option string)
    (s : gset string) :
  Forall (fun q => q ∈ Metadata.run_requires record2) (Metadata.run_requires record1) ->
  Forall (fun q => q ∈ Metadata.run_requires record1) (Metadata.run_requires record2) ->
  Wheel.dependencies_of record1 extra = Ok s ->
  Wheel.dependencies_of record2 extra = Ok s.
Proof.
  unfold Wheel.dependencies_of. rewrite !Forall_forall. intros H12 H21 Hs.
  destruct (dependencies_loop_total extra (Metadata.run_requires record2) ∅) as [s' Hs'].
  { intros q Hq. eapply dependencies_loop_bodies; [exact Hs|]. apply H21, Hq. }
  rewrite Hs'. f_equal. apply set_eq. intros p.
  rewrite (dependencies_loop_Ok _ _ _ _ Hs p), (dependencies_loop_Ok _ _ _ _ Hs' p).
  split; (intros [Hp|(q & Hq & Hrest)]; [left; exact Hp|]); right; exists q; auto.
Qed.

Lemma dependencies_order_and_repeats_witness :
  let L := Reference.library [] in
  let mock := Requirement.with_extras ["test"] Reference.req_mock in
  Wheel.dependencies_of
    (Metadata.Metadata None [mock; Reference.req_six; mock; Reference.req_six] ∅)
    (Some "test")
  = Ok {[ "six"; "mock" ]}.
Proof.
  intros L mock.
  apply (dependencies_order_and_repeats (H := L)
           (Metadata.Metadata None [Reference.req_six; mock] ∅)
           (Metadata.Metadata None [mock; Reference.req_six; mock; Reference.req_six] ∅)
           (Some "test")).
  - repeat constructor.
  - repeat constructor.
  - vm_compute. reflexivity.
Defined.

(** A record none of whose requirements has a marker: [dependencies] never
    raises, and returns the names of the requirements without extras
    together with, under a non-empty request, the names of those that list
    the requested extra; so the set for no extra is part of the set for
    any extra. *)
Theorem dependencies_without_markers `{Library}
    (record : Metadata.t Requirement.t) (extra : option string) :
  Forall (fun q => Requirement.marker q = None) (Metadata.run_requires record) ->
  exists s base,
    Wheel.dependencies_of record extra = Ok s /\
    Wheel.dependencies_of record None = Ok base /\
    base ⊆ s /\
    forall p, p ∈ s <->
              exists q, q ∈ Metadata.run_requires record /\
                        Requirement.project_name q = p /\
                        (Requirement.extras q = [] \/
                         Py.truth_opt_str extra = true /\
                         Wheel.in_tuple extra (Requirement.extras q) = true).
Proof.
  rewrite Forall_forall. intros Hnone.
  assert (Hbody : forall x q, q ∈ Metadata.run_requires record ->
            Wheel.dependencies_body x q
            = Ok (bool_decide (Requirement.extras q = []) ||
                  Py.truth_opt_str x && Wheel.in_tuple x (Requirement.extras q))).
  { intros x q Hq. unfold Wheel.dependencies_body. rewrite (Hnone q Hq).
    destruct (Requirement.extras q) as [|y ys]; simpl.
    - rewrite !andb_false_r. reflexivity.
    - destruct (Py.truth_opt_str x); simpl; [|reflexivity].
      destruct (Wheel.in_tuple x (y :: ys)); reflexivity. }
  assert (Htotal : forall x, is_Ok (Wheel.dependencies_of record x)).
  { intros x. apply dependencies_loop_total. intros q Hq.
    rewrite (Hbody x q Hq). apply is_Ok_Ok. }
  destruct (Htotal extra) as [s Hs]. destruct (Htotal None) as [base Hbase].
  assert (Hchar : forall x t, Wheel.dependencies_of record x = Ok t ->
            forall p, p ∈ t <->
              exists q, q ∈ Metadata.run_requires record /\
                        Requirement.project_name q = p /\
                        (Requirement.extras q = [] \/
                         Py.truth_opt_str x = true /\
                         Wheel.in_tuple x (Requirement.extras q) = true)).
  { intros x t Ht p. rewrite (dependencies_loop_Ok _ _ _ _ Ht p). split.
    - intros [Hp|(q & Hq & Hb & Hname)]; [apply not_elem_of_empty in Hp; destruct Hp|].
      exists q. split; [exact Hq|]. split; [exact Hname|].
      rewrite (Hbody x q Hq) in Hb. injection Hb as Hb.
      apply orb_true_iff in Hb as [Hb|Hb].
      + left. apply bool_decide_eq_true in Hb. exact Hb.
      + right. apply andb_true_iff in Hb. exact Hb.
    - intros (q & Hq & Hname & Hcond). right. exists q. split; [exact Hq|].
      split; [|exact Hname]. rewrite (Hbody x q Hq). f_equal.
      apply orb_true_iff. destruct Hcond as [He|[Hx Hin]].
      + left. apply bool_decide_eq_true. exact He.
      + right. rewrite Hx, Hin. reflexivity. }
  exists s, base. split; [exact Hs|]. split; [exact Hbase|].
  split; [|apply Hchar, Hs].
  intros p Hp. apply (Hchar None base Hbase) in Hp as (q & Hq & Hname & [He|[[=] _]]).
  apply (Hchar extra s Hs). exists q. auto.
Qed.

Lemma dependencies_without_markers_witness :
  let L := Reference.library [] in
  let record :=
    Metadata.Metadata None
      [Reference.req_six; Requirement.Requirement "requests" ["security"] None] ∅ in
  exists s base,
    Wheel.dependencies_of record (Some "security") = Ok s /\
    Wheel.dependencies_of record None = Ok base /\
    base ⊆ s /\
    forall p, p ∈ s <->
              exists q, q ∈ Metadata.run_requires record /\
                        Requirement.project_name q = p /\
                        (Requirement.extras q = [] \/
                         Py.truth_opt_str (Some "security") = true /\
                         Wheel.in_tuple (Some "security") (Requirement.extras q) = true).
Proof.
  intros L record.
  apply (dependencies_without_markers (H := L) record (Some "security")).
  repeat constructor.
Defined.

(** [dependencies] raises only what [Marker.evaluate] raises: it raises [e]
    exactly when some requirement passes the two tests on extras and its
    marker raises [e], no earlier requirement having raised; the
    requirements after it are not looked at. *)
Theorem dependencies_first_marker_error `{Library}
    (record : Metadata.t Requirement.t) (extra : option string) (e : exn) :
  Wheel.dependencies_of record extra = Raise e <->
  exists before q after m,
    Metadata.run_requires record = before ++ q :: after /\
    Forall (fun r => is_Ok (Wheel.dependencies_body extra r)) before /\
    (Requirement.extras q = [] \/
     Py.truth_opt_str extra = true /\
     Wheel.in_tuple extra (Requirement.extras q) = true) /\
    Requirement.marker q = Some m /\
    evaluate m {[ "extra" := extra ]} = Raise e.
Proof.
  unfold Wheel.dependencies_of. rewrite dependencies_loop_Raise. split.
  - intros (before & q & after & Heq & Hall & Hq).
    apply body_Raise in Hq as (Hpass & m & Hm & Hev).
    exists before, q, after, m. auto.
  - intros (before & q & after & m & Heq & Hall & Hpass & Hm & Hev).
    exists before, q, after. split; [exact Heq|]. split; [exact Hall|].
    apply body_Raise. split; [exact Hpass|]. exists m. auto.
Qed.

(** The marker of a requirement that the two tests on extras skip is never
    evaluated: [dependencies] is the same under two libraries whose
    [Marker.evaluate] agree on the markers of the requirements that pass
    these tests. *)
Theorem skipped_markers_not_evaluated (L1 L2 : Library)
    (record : Metadata.t Requirement.t) (extra : option string) :
  Forall (fun q =>
            match Requirement.marker q with
            | Some m =>
                Requirement.extras q = [] \/
                Py.truth_opt_str extra = true /\
                Wheel.in_tuple extra (Requirement.extras q) = true ->
                @evaluate L1 m {[ "extra" := extra ]} = @evaluate L2 m {[ "extra" := extra ]}
            | None => True
            end) (Metadata.run_requires record) ->
  @Wheel.dependencies_of L1 record extra = @Wheel.dependencies_of L2 record extra.
Proof.
  unfold Wheel.dependencies_of. generalize (∅ : gset string).
  induction (Metadata.run_requires record) as [|q reqs IH]; intros acc Hall;
    [reflexivity|].
  inversion Hall as [|? ? Hq Hrest]; subst. simpl.
  assert (Hbody : @Wheel.dependencies_body L1 extra q = @Wheel.dependencies_body L2 extra q).
  { unfold Wheel.dependencies_body.
    destruct (Requirement.extras q) as [|x xs] eqn:He; simpl.
    - rewrite !andb_false_r. destruct (Requirement.marker q) as [m|]; [|reflexivity].
      rewrite Hq by auto. reflexivity.
    - destruct (Py.truth_opt_str extra) eqn:Hx; simpl; [|reflexivity].
      destruct (Wheel.in_tuple extra (x :: xs)) eqn:Hin; simpl; [|reflexivity].
      destruct (Requirement.marker q) as [m|]; [|reflexivity].
      rewrite Hq by auto. reflexivity. }
  rewrite Hbody. destruct (@Wheel.dependencies_body L2 extra q) as [add|e]; simpl;
    [apply IH, Hrest | reflexivity].
Qed.

Lemma skipped_markers_not_evaluated_witness :
  let L1 := Reference.library [] in
  let L2 := Build_Library Reference.parsestr Reference.parse_requirements
              (fun _ _ => Raise TypeError) (Reference.ZipFile []) in
  @Wheel.dependencies_of L1 Reference.example_record None
  = @Wheel.dependencies_of L2 Reference.example_record None.
Proof.
  intros L1 L2.
  apply (skipped_markers_not_evaluated L1 L2 Reference.example_record None).
  repeat constructor; intros [[=]|[[=] _]].
Defined.

(** ** The store, the archive and the command line *)

Lemma parse_metadata_loop_store (rs : list Requirement.t) :
  forall (pre : store) (extras : gset string),
  exists rs',
    fst (Wheel._parse_metadata_loop (seq (List.length pre) (List.length rs)) extras
           (pre ++ rs)) = pre ++ rs' /\
    List.length rs' = List.length rs.
Proof.
  induction rs as [|r rs IH]; intros pre extras.
  - exists []. split; reflexivity.
  - cbn [List.length]. rewrite parse_metadata_loop_step.
    destruct (Wheel.backfill r) as [r'|e].
    + destruct (IH (pre ++ [r']) (extras ∪ list_to_set (Requirement.extras r')))
        as (rs' & Hfst & Hlen).
      exists (r' :: rs'). rewrite Hfst, <- app_assoc. split; [reflexivity|].
      simpl. rewrite Hlen. reflexivity.
    + exists (r :: rs). split; reflexivity.
Qed.

(** A run of [_parse_metadata], whatever its outcome, only adds objects at
    the end of the store: every object that was there is unchanged. When
    it returns a record, the references of the record are the added cells,
    each once and in order. *)
Theorem parse_metadata_frame `{Library} (content : string) (s : store) :
  exists added,
    fst (Wheel._parse_metadata content s) = s ++ added /\
    (forall l r, s !! l = Some r -> fst (Wheel._parse_metadata content s) !! l = Some r) /\
    (forall md, snd (Wheel._parse_metadata content s) = Ok md ->
                Metadata.run_requires md = seq (List.length s) (List.length added) /\
                NoDup (Metadata.run_requires md) /\
                forall l, l ∈ Metadata.run_requires md -> s !! l = None).
Proof.
  rewrite parse_metadata_unfold.
  destruct (parse_requirements _) as [parsed|e].
  - cbv zeta.
    destruct (parse_metadata_loop_store parsed s ∅) as (added & Hfst & Hlen).
    destruct (Wheel._parse_metadata_loop _ _ _) as [s' [extras|e]]; simpl in Hfst;
      subst s'; exists added; simpl.
    + split; [reflexivity|]. split; [intros l r Hl; apply lookup_app_l_Some, Hl|].
      intros md [= <-]. simpl. rewrite Hlen. split; [reflexivity|].
      split; [apply NoDup_seq|].
      intros l Hl. apply elem_of_seq in Hl. apply lookup_ge_None. lia.
    + split; [reflexivity|]. split; [intros l r Hl; apply lookup_app_l_Some, Hl|].
      discriminate.
  - exists []. simpl. rewrite app_nil_r. split; [reflexivity|].
    split; [auto | discriminate].
Qed.

Lemma string_append_assoc_3 (a b c d e : string) :
  (a +:+ b +:+ c +:+ d) +:+ e = a +:+ b +:+ c +:+ d +:+ e.
Proof. rewrite !string_append_assoc. reflexivity. Qed.

Section wheel_methods.

Context `{Library}.

Lemma dependencies_unfold (self : Wheel.t) (extra : option string) (s : store) :
  Wheel.dependencies self extra s
  = match Wheel.metadata self s with
    | (s', Ok md) =>
        match snapshot md s' with
        | (s'', Ok record) => (s'', Wheel.dependencies_of record extra)
        | (s'', Raise e) => (s'', Raise e)
        end
    | (s', Raise e) => (s', Raise e)
    end.
Proof.
  unfold Wheel.dependencies. rewrite M_bind_run.
  destruct (Wheel.metadata self s) as [s' [md|e]]; [|reflexivity].
  rewrite M_bind_run. destruct (snapshot md s') as [s'' [record|e]]; reflexivity.
Qed.

Lemma metadata_unfold (self : Wheel.t) (s : store) :
  Wheel.metadata self s
  = match ZipFile (Wheel.path self) with
    | Ok whl =>
        match Wheel._dist_info self with
        | Ok entry =>
            match whl (entry +:+ "/METADATA") with
            | Ok content => Wheel._parse_metadata content s
            | Raise e => (s, Raise e)
            end
        | Raise e => (s, Raise e)
        end
    | Raise e => (s, Raise e)
    end.
Proof.
  unfold Wheel.metadata. rewrite M_bind_run. unfold lift at 1.
  destruct (ZipFile (Wheel.path self)) as [whl|e]; [|reflexivity].
  rewrite M_bind_run. unfold lift at 1.
  destruct (Wheel._dist_info self) as [entry|e]; [|reflexivity].
  rewrite M_bind_run. unfold lift at 1.
  destruct (whl (entry +:+ "/METADATA")) as [content|e]; reflexivity.
Qed.

End wheel_methods.

(** The methods that read the archive, on a wheel whose archive opens and
    holds the entry [d-v.dist-info/METADATA], [d] and [v] being the first
    two parts of the base name: [dependencies], [extras] and [name] return
    what the record of that text gives (or the error of its parsing), each
    from a reading of its own, and leave the objects of the store as they
    were. *)
Theorem wheel_methods_read_metadata `{Library} (self : Wheel.t) (s : store)
    (whl : archive) (d v content : string) :
  ZipFile (Wheel.path self) = Ok whl ->
  Wheel.distribution self = Ok d ->
  Wheel.version self = Ok v ->
  whl (d +:+ "-" +:+ v +:+ ".dist-info" +:+ "/METADATA") = Ok content ->
  (forall extra,
     snd (Wheel.dependencies self extra s)
     = (record ← Wheel.parse_value content; Wheel.dependencies_of record extra) /\
     exists added, fst (Wheel.dependencies self extra s) = s ++ added) /\
  snd (Wheel.extras self s) = Metadata.extras <$> Wheel.parse_value content /\
  snd (Wheel.name self s) = Metadata.name <$> Wheel.parse_value content.
Proof.
  intros Hzip Hd Hv Hentry.
  assert (Hmeta : Wheel.metadata self s = Wheel._parse_metadata content s).
  { rewrite metadata_unfold, Hzip. unfold Wheel._dist_info. rewrite Hd, Hv.
    cbn [mbind result_bind]. rewrite string_append_assoc_3, Hentry. reflexivity. }
  pose proof (parse_metadata_run content s) as Hrun.
  split; [intros extra|split].
  - rewrite dependencies_unfold, Hmeta.
    destruct (Wheel.parse_value content) as [[name rs extras]|e].
    + rewrite Hrun. unfold snapshot. rewrite M_bind_run.
      cbn [Metadata.run_requires Metadata.name Metadata.extras].
      pose proof (read_all_run s rs []) as Hread. rewrite app_nil_r in Hread.
      rewrite Hread. split; [reflexivity|]. exists rs. reflexivity.
    + destruct (parse_metadata_frame content s) as (added & Hfst & _).
      destruct (Wheel._parse_metadata content s) as [s' [md|e']]; simpl in *;
        [discriminate|].
      split; [congruence|]. exists added. exact Hfst.
  - unfold Wheel.extras. rewrite M_bind_run, Hmeta.
    destruct (Wheel.parse_value content) as [[name rs extras]|e].
    + rewrite Hrun. reflexivity.
    + destruct (Wheel._parse_metadata content s) as [s' [md|e']]; simpl in *;
        [discriminate|congruence].
  - unfold Wheel.name. rewrite M_bind_run, Hmeta.
    destruct (Wheel.parse_value content) as [[name rs extras]|e].
    + rewrite Hrun. reflexivity.
    + destruct (Wheel._parse_metadata content s) as [s' [md|e']]; simpl in *;
        [discriminate|congruence].
Qed.

Lemma wheel_methods_read_metadata_witness :
  let L := Reference.library Reference.example_files in
  let self := Wheel.Wheel "/whl/example-1.0-py3-none-any.whl" in
  (forall extra,
     snd (Wheel.dependencies self extra [Reference.req_six])
     = (record ← Wheel.parse_value Reference.example_metadata;
        Wheel.dependencies_of record extra) /\
     exists added,
       fst (Wheel.dependencies self extra [Reference.req_six])
       = [Reference.req_six] ++ added) /\
  snd (Wheel.extras self [Reference.req_six])
  = Metadata.extras <$> Wheel.parse_value Reference.example_metadata /\
  snd (Wheel.name self [Reference.req_six])
  = Metadata.name <$> Wheel.parse_value Reference.example_metadata.
Proof.
  intros L self.
  apply (wheel_methods_read_metadata (H := L) self [Reference.req_six]
           (fun entry =>
              match Reference.lookup_line entry
                      [("example-1.0.dist-info/METADATA", Reference.example_metadata)] with
              | Some text => Ok text
              | None => Raise KeyError
              end)
           "example" "1.0" Reference.example_metadata);
    reflexivity.
Defined.

(** The errors of the methods that read the archive, in the order the code
    meets them: the error of opening the archive; then, the archive open,
    [IndexError] for a base name without a hyphen; then the error of
    reading the entry. In each case [dependencies], [extras] and [name]
    raise it and the store is untouched. *)
Theorem archive_errors_in_order `{Library} (self : Wheel.t) (s : store)
    (extra : option string) (e : exn) :
  (ZipFile (Wheel.path self) = Raise e \/
   (exists whl, ZipFile (Wheel.path self) = Ok whl) /\
   Py.contains "-" (Wheel.basename self) = false /\ e = IndexError \/
   exists whl entry,
     ZipFile (Wheel.path self) = Ok whl /\ Wheel._dist_info self = Ok entry /\
     whl (entry +:+ "/METADATA") = Raise e) ->
  Wheel.dependencies self extra s = (s, Raise e) /\
  Wheel.extras self s = (s, Raise e) /\
  Wheel.name self s = (s, Raise e).
Proof.
  intros Hcase.
  assert (Hmeta : Wheel.metadata self s = (s, Raise e)).
  { rewrite metadata_unfold.
    destruct Hcase as [->|[([whl ->] & Hh & ->)|(whl & entry & -> & -> & ->)]];
      try reflexivity.
    unfold Wheel._dist_info, Wheel.distribution, Wheel.version.
    rewrite (split_no_separator _ _ Hh). reflexivity. }
  rewrite dependencies_unfold. unfold Wheel.extras, Wheel.name.
  rewrite !M_bind_run, Hmeta. auto.
Qed.

Lemma archive_errors_in_order_witness :
  let L := Reference.library [("/my-wheels/package.whl", [])] in
  let self := Wheel.Wheel "/my-wheels/package.whl" in
  Wheel.dependencies self (Some "test") [Reference.req_six]
  = ([Reference.req_six], Raise IndexError) /\
  Wheel.extras self [Reference.req_six] = ([Reference.req_six], Raise IndexError) /\
  Wheel.name self [Reference.req_six] = ([Reference.req_six], Raise IndexError).
Proof.
  intros L self.
  apply (archive_errors_in_order (H := L) self [Reference.req_six] (Some "test") IndexError).
  right. left. split; [eexists; reflexivity|]. split; reflexivity.
Defined.

Section main_effects.

Context `{Library} `{Cli.System}.

Lemma IO_bind_run {A B} (m : Cli.IO A) (f : A -> Cli.IO B) (w : Cli.world) (s : store) :
  @mbind _ Cli.IO_bind _ _ f m w s =
  match m w s with
  | (w', s', Ok a) => f a w' s'
  | (w', s', Raise e) => (w', s', Raise e)
  end.
Proof. reflexivity. Qed.

End main_effects.

(** [main] meets its failures in this order. When the extraction raises,
    nothing else is done. When it succeeds, [BUILD] is opened for writing
    (created or emptied) before any dependency is resolved: when
    [dependencies()] then raises, for a wheel name without a hyphen or an
    unreadable METADATA, [main] raises the same error having written
    nothing to the file, which is closed and left as the opening made it,
    beside the extracted files. *)
Theorem main_fails_after_opening `{Library} `{Cli.System} (args : Cli.Args)
    (w w1 : Cli.world) (s : store) (e : exn) :
  let build := Cli.path_join (Cli.directory args) "BUILD" in
  (Cli.extractall (Cli.whl args) (Cli.directory args) w = (w1, Raise e) ->
   Cli.main args w s = (w1, s, Raise e)) /\
  (forall w2 s1,
     Cli.extractall (Cli.whl args) (Cli.directory args) w = (w1, Ok ()) ->
     Cli.open_w build w1 = (w2, Ok ()) ->
     Wheel.dependencies (Wheel.Wheel (Cli.whl args)) None s = (s1, Raise e) ->
     Cli.main args w s = (Cli.close build w2, s1, Raise e)).
Proof.
  intros build. unfold Cli.main. split.
  - intros Hextract. rewrite IO_bind_run. unfold Cli.expand, Cli.on_world.
    cbn [Wheel.path Wheel._path]. rewrite Hextract. reflexivity.
  - intros w2 s1 Hextract Hopen Hdeps. rewrite IO_bind_run.
    unfold Cli.expand, Cli.on_world at 1. cbn [Wheel.path Wheel._path].
    rewrite Hextract. unfold Cli.with_open, Cli.on_world at 1. fold build.
    rewrite Hopen. rewrite IO_bind_run. unfold Cli.on_store at 1.
    rewrite Hdeps. reflexivity.
Qed.

Lemma main_fails_after_opening_witness :
  let L := Reference.library [("/my-wheels/package.whl", [])] in
  let S := Cli.files_system in
  let args := {| Cli.whl := "/my-wheels/package.whl"; Cli.requirements := None;
                 Cli.directory := "out"; Cli.extras := Some ["test"] |} in
  let w : gmap string string := {[ "out/BUILD" := "an older BUILD file" ]} in
  @Cli.main L S args w []
  = (<[ "out/BUILD" := "" ]> (<[ "out/EXTRACTED" := "" ]> w), [], Raise IndexError).
Proof.
  intros L S args w.
  exact (proj2 (main_fails_after_opening (H := L) (H0 := S) args w
                  (<[ "out/EXTRACTED" := "" ]> w) [] IndexError)
           (<[ "out/BUILD" := "" ]> (<[ "out/EXTRACTED" := "" ]> w)) []
           eq_refl eq_refl eq_refl).
Defined.

(** On a wheel that can be read, [main] writes the file once, after every
    call of [dependencies] has returned: the base set first, then one call
    for each requested extra in the order given (a repeated extra gives a
    repeated target); without [--extras] the text ends with the base
    target. *)
Example main_writes_build_file :
  let L := Reference.library Reference.example_files in
  let S := Cli.files_system in
  let args := {| Cli.whl := "/whl/example-1.0-py3-none-any.whl";
                 Cli.requirements := None;
                 Cli.directory := ""; Cli.extras := Some ["test"] |} in
  let '(w, s, r) := @Cli.main L S args ∅ [] in
  r = Ok () /\ List.length s = 6 /\
  w !! "BUILD"
  = Some (Cli.build_file None
            (Cli.requirement_call "six")
            (Cli.extra_target "test"
               (Cli.requirement_call "six" +:+ "," +:+ Cli.requirement_call "mock"))).
Proof. vm_compute. repeat split. Qed.

Section main_success.

Context `{Library} `{Cli.System}.

(** One call of [dependencies] on a readable wheel: a fresh copy of the
    record's objects is added to the store. *)
Lemma dependencies_run (self : Wheel.t) (s : store) (whl : archive)
    (d v content : string) (record : Metadata.t Requirement.t)
    (extra : option string) :
  ZipFile (Wheel.path self) = Ok whl ->
  Wheel.distribution self = Ok d ->
  Wheel.version self = Ok v ->
  whl (d +:+ "-" +:+ v +:+ ".dist-info" +:+ "/METADATA") = Ok content ->
  Wheel.parse_value content = Ok record ->
  Wheel.dependencies self extra s
  = (s ++ Metadata.run_requires record, Wheel.dependencies_of record extra).
Proof.
  intros Hzip Hd Hv Hentry Hvalue.
  rewrite dependencies_unfold, metadata_unfold, Hzip. unfold Wheel._dist_info.
  rewrite Hd, Hv. cbn [mbind result_bind]. rewrite string_append_assoc_3, Hentry.
  pose proof (parse_metadata_run content s) as Hrun. rewrite Hvalue in Hrun.
  rewrite Hrun. unfold snapshot. rewrite M_bind_run.
  cbn [Metadata.run_requires Metadata.name Metadata.extras].
  pose proof (read_all_run s (Metadata.run_requires record) []) as Hread.
  rewrite app_nil_r in Hread. rewrite Hread. destruct record. reflexivity.
Qed.

Lemma extra_targets_run (self : Wheel.t) (whl : archive) (d v content : string)
    (record : Metadata.t Requirement.t) (extras : list string) :
  ZipFile (Wheel.path self) = Ok whl ->
  Wheel.distribution self = Ok d ->
  Wheel.version self = Ok v ->
  whl (d +:+ "-" +:+ v +:+ ".dist-info" +:+ "/METADATA") = Ok content ->
  Wheel.parse_value content = Ok record ->
  forall (targets : list string) (w : Cli.world) (s : store),
    Cli.targets_value record extras = Ok targets ->
    Cli.extra_targets self extras w s
    = (w, s ++ List.concat (replicate (List.length extras) (Metadata.run_requires record)),
       Ok targets).
Proof.
  intros Hzip Hd Hv Hentry Hvalue.
  induction extras as [|extra rest IH]; intros targets w s; simpl.
  - intros [= <-]. rewrite app_nil_r. reflexivity.
  - intros Ht. apply bind_Ok in Ht as (deps & Hdeps & Ht).
    apply bind_Ok in Ht as (ts & Hts & [= <-]).
    rewrite IO_bind_run. unfold Cli.on_store at 1.
    rewrite (dependencies_run self s whl d v content record (Some extra)
               Hzip Hd Hv Hentry Hvalue), Hdeps.
    rewrite IO_bind_run, (IH ts w _ Hts), <- app_assoc. reflexivity.
Qed.

End main_success.

(** [main] on a wheel that can be read. Every call of [dependencies] reads
    the archive again, so the store gains one copy of the record's objects
    for the base set and one for each requested extra; the one text
    written to [BUILD] is the template filled with the base set and with a
    target for each requested extra in the order given, each set in the
    order its iteration yields; [main] returns what the write returns, the
    file closed. *)
Theorem main_renders_resolved_sets `{Library} `{Cli.System} (args : Cli.Args)
    (w w1 w2 : Cli.world) (s : store) (whl : archive) (d v content : string)
    (record : Metadata.t Requirement.t) (base : gset string) (targets : list string) :
  let self := Wheel.Wheel (Cli.whl args) in
  let build := Cli.path_join (Cli.directory args) "BUILD" in
  let extras := default [] (Cli.extras args) in
  Cli.extractall (Cli.whl args) (Cli.directory args) w = (w1, Ok ()) ->
  Cli.open_w build w1 = (w2, Ok ()) ->
  ZipFile (Cli.whl args) = Ok whl ->
  Wheel.distribution self = Ok d ->
  Wheel.version self = Ok v ->
  whl (d +:+ "-" +:+ v +:+ ".dist-info" +:+ "/METADATA") = Ok content ->
  Wheel.parse_value content = Ok record ->
  Wheel.dependencies_of record None = Ok base ->
  Cli.targets_value record extras = Ok targets ->
  Cli.main args w s
  = let '(w3, r) :=
      Cli.write build
        (Cli.build_file (Cli.requirements args)
           (Cli.join "," (Cli.requirement_call <$> Cli.iteration None base))
           (Cli.join (Reference.nl +:+ Reference.nl) targets)) w2 in
    (Cli.close build w3,
     s ++ List.concat (replicate (S (List.length extras)) (Metadata.run_requires record)),
     r).
Proof.
  intros self build extras Hextract Hopen Hzip Hd Hv Hentry Hvalue Hbase Htargets.
  unfold Cli.main. rewrite IO_bind_run.
  unfold Cli.expand, Cli.on_world at 1. cbn [Wheel.path Wheel._path].
  rewrite Hextract. unfold Cli.with_open, Cli.on_world at 1. fold build.
  rewrite Hopen. rewrite IO_bind_run. unfold Cli.on_store at 1. fold self.
  rewrite (dependencies_run self s whl d v content record None
             Hzip Hd Hv Hentry Hvalue), Hbase.
  rewrite IO_bind_run. fold extras.
  rewrite (extra_targets_run self whl d v content record extras
             Hzip Hd Hv Hentry Hvalue targets w2 _ Htargets).
  unfold Cli.on_world. simpl List.concat. rewrite <- app_assoc.
  destruct (Cli.write build _ w2) as [w3 r]. reflexivity.
Qed.

Lemma main_renders_resolved_sets_witness :
  let L := Reference.library Reference.example_files in
  let S := Cli.files_system in
  let args := {| Cli.whl := "/whl/example-1.0-py3-none-any.whl";
                 Cli.requirements := Some "@pip//:requirements.bzl";
                 Cli.directory := "out/"; Cli.extras := Some ["security"; "test"] |} in
  let text :=
    Cli.build_file (Some "@pip//:requirements.bzl")
      (Cli.requirement_call "six")
      (Cli.extra_target "security"
         (Cli.requirement_call "six" +:+ "," +:+ Cli.requirement_call "requests")
       +:+ Reference.nl +:+ Reference.nl
       +:+ Cli.extra_target "test"
             (Cli.requirement_call "six" +:+ "," +:+ Cli.requirement_call "mock")) in
  let objects := Metadata.run_requires Reference.example_record in
  @Cli.main L S args ∅ []
  = ({[ "out/EXTRACTED" := ""; "out/BUILD" := text ]},
     objects ++ objects ++ objects, Ok ()).
Proof.
  intros L S args text objects.
  pose proof (main_renders_resolved_sets (H := L) (H0 := S) args ∅
                {[ "out/EXTRACTED" := "" ]}
                {[ "out/EXTRACTED" := ""; "out/BUILD" := "" ]} []
                (fun entry =>
                   match Reference.lookup_line entry
                           [("example-1.0.dist-info/METADATA",
                             Reference.example_metadata)] with
                   | Some text => Ok text
                   | None => Raise KeyError
                   end)
                "example" "1.0" Reference.example_metadata Reference.example_record
                {[ "six" ]}
                [Cli.extra_target "security"
                   (Cli.requirement_call "six" +:+ "," +:+ Cli.requirement_call "requests");
                 Cli.extra_target "test"
                   (Cli.requirement_call "six" +:+ "," +:+ Cli.requirement_call "mock")])
    as Hmain.
  cbv zeta in Hmain. rewrite Hmain; vm_compute; reflexivity.
Defined.
